(** * The strategy template and the stop order of vnpy_novastrategy

    A shallow embedding of [vnpy_portfoliostrategy/template.py]
    (class [StrategyTemplate]) and [vnpy_novastrategy/base.py]
    ([StopOrderStatus], [StopOrder]), followed by the properties of the
    strategy-instance runtime contract that hold, or fail, on that code.

    Python objects are mutable and shared; the embedding passes the
    instance state explicitly.  A method becomes a function of the
    environment (the instance and the trace of requests made to the
    engine) to a result that is either a returned value or a raised
    exception, in both cases with the environment the call left behind:
    Python does not undo mutations when an exception propagates. *)

From Stdlib Require Import ZArith Floats.PrimFloat.
From stdpp Require Import gmap strings list fin_maps sets.

(** ** Constants of [vnpy.trader.constant] and objects of
       [vnpy.trader.object]

    These come from the vnpy library, not from this repository; only the
    members the template reads are kept. *)

Module Direction.
Inductive t := LONG | SHORT | NET.
End Direction.

Module Offset.
Inductive t := NONE | OPEN | CLOSE | CLOSETODAY | CLOSEYESTERDAY.
End Offset.

Module Status.
Inductive t := SUBMITTING | NOTTRADED | PARTTRADED | ALLTRADED | CANCELLED | REJECTED.
End Status.

(** An [Exchange] member is used through its [value] only. *)
Module Exchange.
Record t := Build { value : string }.
End Exchange.

#[global] Instance Direction_eq_dec : EqDecision Direction.t.
Proof. solve_decision. Defined.

#[global] Instance Status_eq_dec : EqDecision Status.t.
Proof. solve_decision. Defined.

(** [TradeData]: the fields [update_trade] reads.  A volume is a float
    (binary64), as vnpy declares it and as the template declares the
    volume of every order; fills can be fractional. *)
Module TradeData.
Record t := Build {
  vt_symbol : string;
  direction : Direction.t;
  volume : float;
}.
End TradeData.

(** [OrderData]: the identifier and the status; [is_active] is vnpy's
    test [status in ACTIVE_STATUSES]. *)
Module OrderData.
Record t := Build {
  vt_orderid : string;
  status : Status.t;
}.

Definition is_active (order : t) : bool :=
  match status order with
  | Status.SUBMITTING | Status.NOTTRADED | Status.PARTTRADED => true
  | _ => false
  end.
End OrderData.

(** ** The Python runtime pieces the code relies on *)

(** Exceptions the modelled statements can raise. *)
Inductive exn := KeyError | TypeError | RuntimeError | RecursionError | AttributeError.

#[global] Instance exn_eq_dec : EqDecision exn.
Proof. solve_decision. Defined.

(** A quantity held by the position map: the [int] 0 that
    [defaultdict(int)] and the default of [dict.get] produce, or a
    float, which is what [+=] and [-=] with a float volume leave. *)
Inductive quantity :=
  | IntZero
  | Float (f : float).

(** [float(q)]: what [q + v] and [q - v] make of [q] when [v] is a
    float. *)
Definition as_float (q : quantity) : float :=
  match q with
  | IntZero => 0%float
  | Float f => f
  end.

(** Values an attribute can hold.  [VRef] stands for an object that is
    only passed around (the engine, a bound method). *)
Inductive pyval :=
  | VNone
  | VBool (b : bool)
  | VInt (z : Z)
  | VFloat (f : float)
  | VStr (s : string)
  | VList (l : list string)
  | VSet (s : gset string)
  | VDict (d : gmap string quantity)
  | VRef (name : string).

Module Py.

(** [set.remove(x)]: raises [KeyError] when [x] is not a member. *)
Definition set_remove (x : string) (s : gset string) : exn + gset string :=
  if bool_decide (x ∈ s) then inr (s ∖ {[x]}) else inl KeyError.

(** [set.update(iterable)]. *)
Definition set_update (s : gset string) (l : list string) : gset string :=
  s ∪ list_to_set l.

(** [q + v] and [q - v] for a float [v]: binary64 addition and
    subtraction, with [float(q)] for [q]. *)
Definition number_add (q : quantity) (v : float) : quantity := Float (as_float q + v).
Definition number_sub (q : quantity) (v : float) : quantity := Float (as_float q - v).

(** [defaultdict(int).__getitem__(k)]: a missing key is first inserted
    with the factory's value [int() = 0]. *)
Definition defaultdict_getitem (d : gmap string quantity) (k : string)
    : quantity * gmap string quantity :=
  match d !! k with
  | Some v => (v, d)
  | None => (IntZero, <[k := IntZero]> d)
  end.

(** [dict.__setitem__(k, v)]. *)
Definition dict_setitem (d : gmap string quantity) (k : string) (v : quantity)
    : gmap string quantity :=
  <[k := v]> d.

(** [dict.get(k, default)]: never calls [__missing__], so it inserts
    nothing, also on a [defaultdict]; the dictionary is returned next to
    the value to make that visible. *)
Definition dict_get (d : gmap string quantity) (k : string) (dflt : quantity)
    : quantity * gmap string quantity :=
  (default dflt (d !! k), d).

(** [list.extend(iterable)] appends in place and returns [None]: the
    first component is the value of the call expression, the second the
    receiver afterwards. *)
Definition list_extend (l ext : list string) : option (list string) * list string :=
  (None, l ++ ext).

(** List objects have an identity: two names can denote one list.  The
    heap maps the identity of each list object to its content. *)
Definition loc := positive.
Definition heap := gmap loc (list string).

(** [list()]: a new, empty list object. *)
Definition new_list (h : heap) : loc * heap :=
  let l := fresh (dom h) in (l, <[l := []]> h).

(** [l.append(x)] on the object at [l]. *)
Definition list_append (l : loc) (x : string) (h : heap) : heap :=
  alter (λ content, content ++ [x]) l h.

End Py.

(** ** The instance state of a [StrategyTemplate] *)

Module Strategy.
Record t := Build {
  strategy_name : string;
  vt_symbols : list string;
  inited : bool;
  trading : bool;
  pos_data : gmap string quantity; (* defaultdict(int) *)
  active_orderids : gset string;
  variables : option (list string); (* the instance attribute; [None] is Python's None *)
  attrs : gmap string pyval;       (* attributes created through setattr *)
}.

Definition set_pos_data (d : gmap string quantity) (s : t) : t :=
  Build (strategy_name s) (vt_symbols s) (inited s) (trading s) d
        (active_orderids s) (variables s) (attrs s).

Definition set_active_orderids (a : gset string) (s : t) : t :=
  Build (strategy_name s) (vt_symbols s) (inited s) (trading s) (pos_data s)
        a (variables s) (attrs s).

Definition set_attrs (m : gmap string pyval) (s : t) : t :=
  Build (strategy_name s) (vt_symbols s) (inited s) (trading s) (pos_data s)
        (active_orderids s) (variables s) m.

Definition set_trading (b : bool) (s : t) : t :=
  Build (strategy_name s) (vt_symbols s) (inited s) b (pos_data s)
        (active_orderids s) (variables s) (attrs s).
End Strategy.

(** ** The environment of a method call *)

(** A request the template made to the engine. *)
Inductive EngineCall :=
  | SendOrderCall (vt_symbol : string) (direction : Direction.t) (offset : Offset.t)
                  (price volume : float) (lock net : bool)
  | CancelOrderCall (vt_orderid : string).

Record Env := mkEnv {
  self : Strategy.t;
  calls : list EngineCall;   (* oldest first *)
}.

Definition set_self (s : Strategy.t) (e : Env) : Env := mkEnv s (calls e).
Definition log_call (c : EngineCall) (e : Env) : Env := mkEnv (self e) (calls e ++ [c]).

Inductive Result (A : Type) :=
  | Ok (a : A) (e : Env)
  | Raise (x : exn) (e : Env).
Arguments Ok {A} a e.
Arguments Raise {A} x e.

Definition M (A : Type) : Type := Env → Result A.

Definition env_of {A} (r : Result A) : Env :=
  match r with Ok _ e => e | Raise _ e => e end.

Definition raised {A} (r : Result A) : option exn :=
  match r with Ok _ _ => None | Raise x _ => Some x end.

#[global] Instance M_ret : MRet M := λ A a e, Ok a e.
#[global] Instance M_bind : MBind M := λ A B f m e,
  match m e with
  | Ok a e' => f a e'
  | Raise x e' => Raise x e'
  end.

Definition raise {A} (x : exn) : M A := λ e, Raise x e.

(** ** Classes and the engine *)

(** What a strategy class declares.  [on_trade] and [on_order] are the
    overrides of a subclass, [None] when the subclass inherits the
    template's method; an [on_order] override receives the method
    [super().on_order], which it may or may not call. *)
Module StrategyClass.
Record t := Build {
  class_name : string;
  author : string;
  parameters : list string;
  variables : list string;
  class_attrs : gmap string pyval;   (* strategy-specific class attributes: the defaults *)
  on_trade : option (TradeData.t → M unit);
  on_order : option ((OrderData.t → M unit) → OrderData.t → M unit);
}.
End StrategyClass.

(** The engine as the template sees it.  Each method receives the
    strategy instance and may mutate it (an engine that delivers a
    callback before it returns); the engine is outside the repository. *)
Module StrategyEngine.
Record t := Build {
  send_order : Strategy.t → string → Direction.t → Offset.t → float → float →
               bool → bool → list string * Strategy.t;
  cancel_order : Strategy.t → string → Strategy.t;
}.
End StrategyEngine.

(** The class [StrategyTemplate] itself: no author, no parameters, no
    variables, nothing overridden. *)
Definition StrategyTemplate : StrategyClass.t :=
  StrategyClass.Build "StrategyTemplate" "" [] [] ∅ None None.

(** Names that [StrategyTemplate] defines: the instance attributes set by
    [__init__], the class attributes and the methods. *)
Definition template_names : list string :=
  [ "strategy_engine"; "strategy_name"; "vt_symbols"; "inited"; "trading";
    "pos_data"; "active_orderids"; "variables";
    "author"; "parameters";
    "update_setting"; "get_class_parameters"; "get_parameters"; "get_variables";
    "get_data"; "on_init"; "on_start"; "on_stop"; "on_tick"; "on_bars";
    "on_trade"; "on_order"; "update_trade"; "buy"; "sell"; "short"; "cover";
    "send_order"; "cancel_order"; "cancel_all"; "get_pos"; "write_log";
    "get_pricetick"; "get_size"; "load_bars"; "put_event"; "sync_data" ].

(** A class is well formed when its declared parameters are attributes of
    its own, not members of the template.  The typed fields of the
    instance state ([trading], [pos_data], ...) follow such classes only:
    applying a setting cannot replace them. *)
Definition wf_class (cls : StrategyClass.t) : Prop :=
  Forall (λ name, name ∉ template_names) (StrategyClass.parameters cls).

#[global] Instance wf_class_dec cls : Decision (wf_class cls).
Proof. unfold wf_class. apply _. Defined.

(** An insertion-ordered [dict] with string keys, as the snapshots are. *)
Fixpoint odict_setitem (k : string) (v : pyval) (d : list (string * pyval)) : list (string * pyval) :=
  match d with
  | [] => [(k, v)]
  | (k', v') :: d' =>
      if decide (k = k') then (k, v) :: d' else (k', v') :: odict_setitem k v d'
  end.

Section Template.

Variable cls : StrategyClass.t.
Variable engine : StrategyEngine.t.

(** *** Attribute access by name *)

Definition instance_fields (s : Strategy.t) : list (string * pyval) :=
  [ ("strategy_engine", VRef "strategy_engine");
    ("strategy_name", VStr (Strategy.strategy_name s));
    ("vt_symbols", VList (Strategy.vt_symbols s));
    ("inited", VBool (Strategy.inited s));
    ("trading", VBool (Strategy.trading s));
    ("pos_data", VDict (Strategy.pos_data s));
    ("active_orderids", VSet (Strategy.active_orderids s));
    ("variables", from_option VList VNone (Strategy.variables s)) ].

Definition template_members : list (string * pyval) :=
  [ ("author", VStr (StrategyClass.author cls));
    ("parameters", VList (StrategyClass.parameters cls)) ]
  ++ ((λ name, (name, VRef name)) <$> drop 10 template_names).

(** [getattr(self, name)]: the instance first (an attribute stored by
    [setattr], then the attributes [__init__] created), then the class. *)
Definition getattr (s : Strategy.t) (name : string) : exn + pyval :=
  match (Strategy.attrs s ∪ list_to_map (instance_fields s)) !! name with
  | Some v => inr v
  | None =>
      match (list_to_map template_members ∪ StrategyClass.class_attrs cls) !! name with
      | Some v => inr v
      | None => inl AttributeError
      end
  end.

(** [setattr(self, name, value)].  The value is stored in [attrs], where
    [getattr] finds it first; the typed fields of the instance are not
    rewritten, which is exact for the names a well-formed class declares
    (see [wf_class]). *)
Definition setattr (name : string) (v : pyval) (s : Strategy.t) : Strategy.t :=
  Strategy.set_attrs (<[name := v]> (Strategy.attrs s)) s.

(** *** Construction and reflection *)

Definition update_setting (setting : gmap string pyval) (s : Strategy.t) : Strategy.t :=
  foldl (λ s name,
           match setting !! name with
           | Some v => setattr name v s
           | None => s
           end)
        s (StrategyClass.parameters cls).

Definition __init__ (strategy_name : string) (vt_symbols : list string)
    (setting : gmap string pyval) : Strategy.t :=
  let self :=
    Strategy.Build strategy_name vt_symbols
      false false
      ∅
      ∅
      (* ["inited", "trading", "pos_data"].extend(self.variables) *)
      (fst (Py.list_extend ["inited"; "trading"; "pos_data"] (StrategyClass.variables cls)))
      ∅ in
  update_setting setting self.

(** The loop shared by [get_parameters] and [get_variables]:
    [d[name] = getattr(self, name)] for each name in turn. *)
Fixpoint read_attributes (s : Strategy.t) (names : list string)
    (d : list (string * pyval)) : exn + list (string * pyval) :=
  match names with
  | [] => inr d
  | name :: names' =>
      match getattr s name with
      | inr v => read_attributes s names' (odict_setitem name v d)
      | inl x => inl x
      end
  end.

Definition get_parameters (s : Strategy.t) : exn + list (string * pyval) :=
  read_attributes s (StrategyClass.parameters cls) [].

(** [for name in self.variables] raises [TypeError] when the attribute is
    [None]. *)
Definition get_variables (s : Strategy.t) : exn + list (string * pyval) :=
  match Strategy.variables s with
  | None => inl TypeError
  | Some names => read_attributes s names []
  end.

(** *** Callbacks *)

(** The template's [on_trade]: [pass]. *)
Definition on_trade (trade : TradeData.t) : M unit := mret tt.

(** [self.on_trade(trade)]: the override of the subclass when there is
    one. *)
Definition self_on_trade (trade : TradeData.t) : M unit :=
  match StrategyClass.on_trade cls with
  | Some hook => hook trade
  | None => on_trade trade
  end.

Definition update_trade (trade : TradeData.t) : M unit := λ env,
  let s := self env in
  let k := TradeData.vt_symbol trade in
  let '(old, d) := Py.defaultdict_getitem (Strategy.pos_data s) k in
  let d' :=
    if decide (TradeData.direction trade = Direction.LONG)
    then Py.dict_setitem d k (Py.number_add old (TradeData.volume trade))
    else Py.dict_setitem d k (Py.number_sub old (TradeData.volume trade)) in
  self_on_trade trade (set_self (Strategy.set_pos_data d' s) env).

(** Lines 137-140 of [on_order]: drop the identifier of an order that is
    no longer active, when it is tracked. *)
Definition on_order_discard (order : OrderData.t) : M unit := λ env,
  let vt_orderid := OrderData.vt_orderid order in
  let s := self env in
  if negb (OrderData.is_active order)
     && bool_decide (vt_orderid ∈ Strategy.active_orderids s)
  then match Py.set_remove vt_orderid (Strategy.active_orderids s) with
       | inr a => Ok tt (set_self (Strategy.set_active_orderids a s) env)
       | inl x => Raise x env
       end
  else Ok tt env.

(** The class body defines [on_order] twice; the second definition (line
    135) replaces the first (line 122), so [StrategyTemplate.on_order] is
    the method below and its last statement, [self.on_order(order)],
    resolves to the override of the subclass or, without one, to this
    same method.  [depth] is the number of frames left before the
    interpreter's recursion limit. *)
Fixpoint on_order (depth : nat) (order : OrderData.t) : M unit :=
  match depth with
  | O => raise RecursionError
  | S depth' =>
      _ ← on_order_discard order;
      match StrategyClass.on_order cls with
      | None => on_order depth' order
      | Some hook =>
          match depth' with
          | O => raise RecursionError
          | S depth'' => hook (on_order depth'') order
          end
      end
  end.

(** [strategy.on_order(order)] as a caller writes it: method lookup on the
    class of the instance. *)
Definition self_on_order (depth : nat) (order : OrderData.t) : M unit :=
  match StrategyClass.on_order cls with
  | None => on_order depth order
  | Some hook =>
      match depth with
      | O => raise RecursionError
      | S depth' => hook (on_order depth') order
      end
  end.

(** *** Commands *)

Definition send_order (vt_symbol : string) (direction : Direction.t) (offset : Offset.t)
    (price volume : float) (lock net : bool) : M (list string) := λ env,
  if negb (Strategy.trading (self env)) then Ok [] env
  else
    let '(vt_orderids, s) :=
      StrategyEngine.send_order engine (self env) vt_symbol direction offset price volume lock net in
    let s' := Strategy.set_active_orderids
                (Py.set_update (Strategy.active_orderids s) vt_orderids) s in
    Ok vt_orderids
       (set_self s' (log_call (SendOrderCall vt_symbol direction offset price volume lock net) env)).

Definition buy (vt_symbol : string) (price volume : float) (lock net : bool) : M (list string) :=
  send_order vt_symbol Direction.LONG Offset.OPEN price volume lock net.

Definition sell (vt_symbol : string) (price volume : float) (lock net : bool) : M (list string) :=
  send_order vt_symbol Direction.SHORT Offset.CLOSE price volume lock net.

Definition short (vt_symbol : string) (price volume : float) (lock net : bool) : M (list string) :=
  send_order vt_symbol Direction.SHORT Offset.OPEN price volume lock net.

Definition cover (vt_symbol : string) (price volume : float) (lock net : bool) : M (list string) :=
  send_order vt_symbol Direction.LONG Offset.CLOSE price volume lock net.

Definition cancel_order (vt_orderid : string) : M unit := λ env,
  if Strategy.trading (self env)
  then Ok tt (set_self (StrategyEngine.cancel_order engine (self env) vt_orderid)
                       (log_call (CancelOrderCall vt_orderid) env))
  else Ok tt env.

(** [for vt_orderid in self.active_orderids: body(vt_orderid)] over the
    live set.  The iterator remembers the size of the set at its creation
    ([si_used]) and its position ([si_pos]); every [next], the last one
    that would end the loop included, first compares the current size
    with [si_used] and raises [RuntimeError] ("Set changed size during
    iteration") when they differ.  The order of a set is unspecified; the
    order of [elements] stands for it.  [remaining] bounds the loop: with
    the size unchanged there are [si_used - si_pos] elements left. *)
Fixpoint for_in_active_orderids (body : string → M unit)
    (si_used si_pos remaining : nat) : M unit := λ env,
  let a := Strategy.active_orderids (self env) in
  if negb (size a =? si_used) then Raise RuntimeError env
  else
    match remaining with
    | O => Ok tt env
    | S remaining' =>
        match elements a !! si_pos with
        | None => Ok tt env
        | Some vt_orderid =>
            match body vt_orderid env with
            | Ok _ env' => for_in_active_orderids body si_used (S si_pos) remaining' env'
            | Raise x env' => Raise x env'
            end
        end
    end.

Definition cancel_all : M unit := λ env,
  let n := size (Strategy.active_orderids (self env)) in
  for_in_active_orderids cancel_order n 0 n env.

Definition get_pos (vt_symbol : string) : M quantity := λ env,
  let s := self env in
  let '(pos, d) := Py.dict_get (Strategy.pos_data s) vt_symbol IntZero in
  Ok pos (set_self (Strategy.set_pos_data d s) env).

End Template.

(** ** [vnpy_novastrategy/base.py] *)

Definition APP_NAME : string := "NovaStrategy".
Definition EVENT_NOVA_LOG : string := "eNovaLog".
Definition EVENT_NOVA_STRATEGY : string := "eNovaStrategy".
Definition STOPORDER_PREFIX : string := "STOP".

Module StopOrderStatus.
Inductive t := WAITING | CANCELLED | TRIGGERED.
End StopOrderStatus.

#[global] Instance StopOrderStatus_eq_dec : EqDecision StopOrderStatus.t.
Proof. solve_decision. Defined.

(** The dataclass [StopOrder].  [fields] are the declared fields, in
    order; [vt_orderids] is a reference to a list object.  [t] adds the
    attribute that [__post_init__] creates. *)
Module StopOrder.
Record fields := Fields {
  symbol : string;
  exchange : Exchange.t;
  direction : Direction.t;
  offset : Offset.t;
  price : float;
  volume : float;
  stop_orderid : string;
  strategy_name : string;
  datetime : Z;
  vt_orderids : Py.loc;
  status : StopOrderStatus.t;
  reason : string;
}.

Record t := Build {
  dataclass_fields : fields;
  vt_symbol : string;
}.

(** [self.vt_symbol = f"{self.symbol}.{self.exchange.value}"] *)
Definition __post_init__ (self : fields) : t :=
  Build self (symbol self +:+ "." +:+ Exchange.value (exchange self)).

(** The generated [__init__]: nine required arguments, then three with
    defaults ([None] below when the caller leaves one out):
    [vt_orderids] from [default_factory=list], [status] WAITING,
    [reason] the empty string.  It ends by calling [__post_init__]. *)
Definition __init__ (symbol : string) (exchange : Exchange.t) (direction : Direction.t)
    (offset : Offset.t) (price volume : float) (stop_orderid strategy_name : string)
    (datetime : Z) (vt_orderids : option Py.loc) (status : option StopOrderStatus.t)
    (reason : option string) (h : Py.heap) : t * Py.heap :=
  let '(l, h') :=
    match vt_orderids with
    | Some l => (l, h)
    | None => Py.new_list h
    end in
  (__post_init__
     (Fields symbol exchange direction offset price volume stop_orderid strategy_name
             datetime l (default StopOrderStatus.WAITING status) (default "" reason)),
   h').

Definition set_status (st : StopOrderStatus.t) (so : t) : t :=
  let f := dataclass_fields so in
  Build (Fields (symbol f) (exchange f) (direction f) (offset f) (price f)
                (volume f) (stop_orderid f) (strategy_name f) (datetime f)
                (vt_orderids f) st (reason f))
        (vt_symbol so).
End StopOrder.

#[global] Coercion StopOrder.dataclass_fields : StopOrder.t >-> StopOrder.fields.

(** Modelled from the spec: the conditional-order manager of section 4.2,
    which the repository does not contain (base.py holds the status
    enumeration and the record only).  In the spec's words: for every
    Waiting stop order whose trigger condition is met by the current
    price (buy-stop: price >= trigger; sell-stop: price <= trigger) the
    manager transitions the order to Triggered and issues the real
    orders, recording the returned identifiers; an order transitions to
    Cancelled only from Waiting, upon explicit cancellation or the
    shutdown of the owning strategy. *)
Module StopOrderManager.

Inductive event :=
  | PriceData (price : float)
  | Cancellation.

Definition trigger_met (so : StopOrder.t) (price : float) : bool :=
  match StopOrder.direction so with
  | Direction.LONG => PrimFloat.leb (StopOrder.price so) price
  | Direction.SHORT => PrimFloat.leb price (StopOrder.price so)
  | Direction.NET => false
  end.

Section Manager.

(** The identifiers the engine returns for the real orders of a
    triggered stop order. *)
Variable issue_orders : StopOrder.t → list string.

Definition on_price (price : float) (st : StopOrder.t * Py.heap) : StopOrder.t * Py.heap :=
  let '(so, h) := st in
  if bool_decide (StopOrder.status so = StopOrderStatus.WAITING) && trigger_met so price
  then (StopOrder.set_status StopOrderStatus.TRIGGERED so,
        foldl (λ h x, Py.list_append (StopOrder.vt_orderids so) x h) h (issue_orders so))
  else (so, h).

Definition cancel (st : StopOrder.t * Py.heap) : StopOrder.t * Py.heap :=
  let '(so, h) := st in
  if bool_decide (StopOrder.status so = StopOrderStatus.WAITING)
  then (StopOrder.set_status StopOrderStatus.CANCELLED so, h)
  else (so, h).

Definition step (st : StopOrder.t * Py.heap) (ev : event) : StopOrder.t * Py.heap :=
  match ev with
  | PriceData price => on_price price st
  | Cancellation => cancel st
  end.

Definition run (evs : list event) (st : StopOrder.t * Py.heap) : StopOrder.t * Py.heap :=
  foldl step st evs.

(** How many of the events moved the order into Triggered. *)
Fixpoint triggerings (evs : list event) (st : StopOrder.t * Py.heap) : nat :=
  match evs with
  | [] => 0
  | ev :: evs' =>
      let st' := step st ev in
      (if bool_decide (StopOrder.status st.1 ≠ StopOrderStatus.TRIGGERED
                       ∧ StopOrder.status st'.1 = StopOrderStatus.TRIGGERED)
       then 1 else 0) + triggerings evs' st'
  end.

End Manager.
End StopOrderManager.

(** ** Notions the properties are stated with *)

(** The position recorded for an instrument: the entry of the position
    map, 0 when there is none. *)
Definition position (k : string) (e : Env) : quantity :=
  default IntZero (Strategy.pos_data (self e) !! k).

(** One trade booked on a quantity: a long fill adds its volume, any
    other fill subtracts it, in binary64. *)
Definition book (q : quantity) (trade : TradeData.t) : quantity :=
  match TradeData.direction trade with
  | Direction.LONG => Py.number_add q (TradeData.volume trade)
  | _ => Py.number_sub q (TradeData.volume trade)
  end.

(** The signed volumes of a sequence of trades accumulated on [q] one
    after the other, in the order of arrival, each step rounded. *)
Definition accumulate (q : quantity) (trades : list TradeData.t) : quantity :=
  foldl book q trades.

(** The trades on instrument [k], in the order of arrival. *)
Definition trades_on (k : string) (trades : list TradeData.t) : list TradeData.t :=
  filter (λ trade, TradeData.vt_symbol trade = k) trades.

(** The engine delivers the events one after the other; an exception
    raised by a callback does not undo what the callback did. *)
Definition deliver_trades (cls : StrategyClass.t) (trades : list TradeData.t) (e : Env) : Env :=
  foldl (λ e trade, env_of (update_trade cls trade e)) e trades.

(** The position map that [update_trade] hands to [on_trade]. *)
Definition booked (trade : TradeData.t) (e : Env) : Env :=
  let s := self e in
  let k := TradeData.vt_symbol trade in
  set_self
    (Strategy.set_pos_data
       (<[k := book (default IntZero (Strategy.pos_data s !! k)) trade]>
          (Py.defaultdict_getitem (Strategy.pos_data s) k).2) s) e.

(** The user's [on_trade] does not write the position map. *)
Definition on_trade_keeps_positions (cls : StrategyClass.t) : Prop :=
  ∀ trade e,
    Strategy.pos_data (self (env_of (self_on_trade cls trade e))) = Strategy.pos_data (self e).

(** A fresh instance of [cls] and the empty trace. *)
Definition fresh_env (cls : StrategyClass.t) (strategy_name : string)
    (vt_symbols : list string) (setting : gmap string pyval) : Env :=
  mkEnv (__init__ cls strategy_name vt_symbols setting) [].

(** The fields that [__init__] creates agree on two instance states. *)
Definition same_fields (s s' : Strategy.t) : Prop :=
  Strategy.strategy_name s = Strategy.strategy_name s'
  ∧ Strategy.vt_symbols s = Strategy.vt_symbols s'
  ∧ Strategy.inited s = Strategy.inited s'
  ∧ Strategy.trading s = Strategy.trading s'
  ∧ Strategy.pos_data s = Strategy.pos_data s'
  ∧ Strategy.active_orderids s = Strategy.active_orderids s'
  ∧ Strategy.variables s = Strategy.variables s'.

(** How many cancel requests for [vt_orderid] a trace holds. *)
Definition is_cancel_of (vt_orderid : string) (c : EngineCall) : bool :=
  match c with
  | CancelOrderCall vt_orderid' => bool_decide (vt_orderid' = vt_orderid)
  | SendOrderCall _ _ _ _ _ _ _ => false
  end.

Fixpoint cancel_requests (vt_orderid : string) (cs : list EngineCall) : nat :=
  match cs with
  | [] => 0
  | c :: cs' => (if is_cancel_of vt_orderid c then 1 else 0) + cancel_requests vt_orderid cs'
  end.

(** An engine whose [cancel_order] only takes the request: it returns
    with the active-order set and the trading flag of the strategy as
    they were (the confirmation arrives later, as an order callback of
    its own). *)
Definition cancel_returns_before_callbacks (engine : StrategyEngine.t) : Prop :=
  ∀ s vt_orderid,
    Strategy.active_orderids (StrategyEngine.cancel_order engine s vt_orderid)
    = Strategy.active_orderids s
    ∧ Strategy.trading (StrategyEngine.cancel_order engine s vt_orderid) = Strategy.trading s.

(** The instance state after lines 137-140 of [on_order]. *)
Definition discarded (order : OrderData.t) (e : Env) : Env :=
  if OrderData.is_active order then e
  else set_self
         (Strategy.set_active_orderids
            (Strategy.active_orderids (self e) ∖ {[OrderData.vt_orderid order]}) (self e))
         e.

(** Lines 137-140 run for each order callback of a sequence. *)
Definition discard_all (orders : list OrderData.t) (e : Env) : Env :=
  foldl (λ e order, env_of (on_order_discard order e)) e orders.

(** ** Classes, engines and inputs of the examples *)

(** A strategy class with two parameters and one variable of its own,
    none of its callbacks overridden. *)
Definition DemoStrategy : StrategyClass.t :=
  StrategyClass.Build "DemoStrategy" "demo"
    ["fast_window"; "slow_window"]
    ["fast_ma"]
    (<["fast_window" := VInt 10]> (<["slow_window" := VInt 20]> (<["fast_ma" := VInt 0]> ∅)))
    None None.

(** A setting that names one declared parameter and one unknown key. *)
Definition demo_setting : gmap string pyval :=
  <["fast_window" := VInt 5]> (<["unknown" := VInt 1]> ∅).

(** A subclass that overrides [on_order] with a body that does nothing:
    [def on_order(self, order): pass]. *)
Definition PassiveStrategy : StrategyClass.t :=
  StrategyClass.Build "PassiveStrategy" "demo" [] [] ∅ None (Some (λ _ _, mret tt)).

(** An engine that queues every request and touches nothing. *)
Definition queueing_engine : StrategyEngine.t :=
  StrategyEngine.Build (λ s _ _ _ _ _ _ _, ([], s)) (λ s _, s).

(** An engine that confirms a cancellation before [cancel_order]
    returns: when the call is over, the identifier has left the
    active-order set of the strategy. *)
Definition confirming_engine : StrategyEngine.t :=
  StrategyEngine.Build
    (λ s _ _ _ _ _ _ _, ([], s))
    (λ s vt_orderid,
       Strategy.set_active_orderids (Strategy.active_orderids s ∖ {[vt_orderid]}) s).

(** An engine that acknowledges every submission with the identifier
    BTC-1. *)
Definition acknowledging_engine : StrategyEngine.t :=
  StrategyEngine.Build (λ s _ _ _ _ _ _ _, (["BTC-1"], s)) (λ s _, s).

(** A started instance of [cls] with nothing recorded yet. *)
Definition started_env (cls : StrategyClass.t) : Env :=
  mkEnv (Strategy.set_trading true (__init__ cls "demo" ["BTCUSDT.BINANCE"] ∅)) [].

(** A started instance of [cls] that tracks two orders. *)
Definition two_orders_env (cls : StrategyClass.t) : Env :=
  mkEnv (Strategy.set_trading true
           (Strategy.set_active_orderids {["BTC-1"; "BTC-2"]}
              (__init__ cls "demo" ["BTCUSDT.BINANCE"] ∅)))
        [].

(** An order that the engine reports as cancelled. *)
Definition cancelled_order (vt_orderid : string) : OrderData.t :=
  OrderData.Build vt_orderid Status.CANCELLED.

(** Three trades, two on BTCUSDT with one on ETHUSDT in between. *)
Definition example_trades : list TradeData.t :=
  [ TradeData.Build "BTCUSDT.BINANCE" Direction.LONG 0.5%float;
    TradeData.Build "ETHUSDT.BINANCE" Direction.SHORT 7%float;
    TradeData.Build "BTCUSDT.BINANCE" Direction.SHORT 0.25%float ].

(** Long fills of 0.1, 0.2 and 0.3 on BTCUSDT, in that order; the
    volumes are the floats nearest to the decimals, as Python reads
    them. *)
Definition fractional_fills : list TradeData.t :=
  [ TradeData.Build "BTCUSDT.BINANCE" Direction.LONG (1 / 10)%float;
    TradeData.Build "BTCUSDT.BINANCE" Direction.LONG (2 / 10)%float;
    TradeData.Build "BTCUSDT.BINANCE" Direction.LONG (3 / 10)%float ].

(** The stop order of the spec's scenario: a buy-stop with trigger price
    100, constructed with the defaults on the empty heap. *)
Definition buy_stop_100 : StopOrder.t * Py.heap :=
  StopOrder.__init__ "BTCUSDT" (Exchange.Build "BINANCE") Direction.LONG Offset.OPEN
    100%float 1%float "STOP.1" "demo" 0 None None None ∅.

(** ** Further methods of the template *)

Section Reflection.

Variable cls : StrategyClass.t.

(** The attributes of the class itself, for [getattr(cls, name)]: what
    the template defines, [variables] included (on an instance the
    attribute of [__init__] hides it), then the attributes of the
    subclass.  The attributes that [__init__] creates are not there. *)
Definition class_members : list (string * pyval) :=
  ("variables", VList (StrategyClass.variables cls)) :: template_members cls.

Definition class_getattr (name : string) : exn + pyval :=
  match (list_to_map class_members ∪ StrategyClass.class_attrs cls) !! name with
  | Some v => inr v
  | None => inl AttributeError
  end.

(** The loop of [get_class_parameters]:
    [class_parameters[name] = getattr(cls, name)]. *)
Fixpoint read_class_attributes (names : list string)
    (d : list (string * pyval)) : exn + list (string * pyval) :=
  match names with
  | [] => inr d
  | name :: names' =>
      match class_getattr name with
      | inr v => read_class_attributes names' (odict_setitem name v d)
      | inl x => inl x
      end
  end.

Definition get_class_parameters : exn + list (string * pyval) :=
  read_class_attributes (StrategyClass.parameters cls) [].

(** The dictionary that [get_data] builds, entry by entry in the order of
    the source; [class_name] is [self.__class__.__name__]. *)
Record StrategyData := mkStrategyData {
  data_strategy_name : pyval;
  data_vt_symbols : pyval;
  data_class_name : string;
  data_author : pyval;
  data_parameters : list (string * pyval);
  data_variables : list (string * pyval);
}.

Definition get_data (s : Strategy.t) : exn + StrategyData :=
  match getattr cls s "strategy_name" with
  | inl x => inl x
  | inr strategy_name =>
  match getattr cls s "vt_symbols" with
  | inl x => inl x
  | inr vt_symbols =>
  match getattr cls s "author" with
  | inl x => inl x
  | inr author =>
  match get_parameters cls s with
  | inl x => inl x
  | inr parameters =>
  match get_variables cls s with
  | inl x => inl x
  | inr variables =>
      inr (mkStrategyData strategy_name vt_symbols (StrategyClass.class_name cls)
             author parameters variables)
  end end end end end.

End Reflection.

(** ** Notions for the further properties *)

(** A snapshot of defaults with the values of a setting laid over it. *)
Definition overlay (setting : gmap string pyval) (d : list (string * pyval))
    : list (string * pyval) :=
  (λ kv, (kv.1, default kv.2 (setting !! kv.1))) <$> d.

(** The instruments of a sequence of trades. *)
Definition traded_symbols (trades : list TradeData.t) : gset string :=
  list_to_set (TradeData.vt_symbol <$> trades).

(** An engine whose [cancel_order] returns with the active-order set of
    the strategy at another size: it has confirmed the cancellation, or
    let another order in, before returning. *)
Definition cancel_changes_size (engine : StrategyEngine.t) : Prop :=
  ∀ s vt_orderid,
    vt_orderid ∈ Strategy.active_orderids s →
    size (Strategy.active_orderids (StrategyEngine.cancel_order engine s vt_orderid))
    ≠ size (Strategy.active_orderids s).

(** An engine whose [cancel_order] leaves the active-order set alone and
    returns with the strategy stopped. *)
Definition cancel_stops_trading (engine : StrategyEngine.t) : Prop :=
  ∀ s vt_orderid,
    Strategy.active_orderids (StrategyEngine.cancel_order engine s vt_orderid)
    = Strategy.active_orderids s
    ∧ Strategy.trading (StrategyEngine.cancel_order engine s vt_orderid) = false.

(** An engine that stops the strategy at the first cancellation. *)
Definition halting_engine : StrategyEngine.t :=
  StrategyEngine.Build (λ s _ _ _ _ _ _ _, ([], s)) (λ s _, Strategy.set_trading false s).

(** A subclass whose [on_order] runs [before], calls
    [super().on_order(order)] and then runs [after]. *)
Definition ForwardingStrategy (before after : OrderData.t → M unit) : StrategyClass.t :=
  StrategyClass.Build "ForwardingStrategy" "demo" [] [] ∅ None
    (Some (λ super_on_order order,
             _ ← before order; _ ← super_on_order order; after order)).

(** A body that does nothing: [pass]. *)
Definition pass : OrderData.t → M unit := λ _, mret tt.

(** The character of the string ["."]. *)
Definition dot : Ascii.ascii := Ascii.ascii_of_nat 46.

(** A string without a dot, as the values of vnpy's [Exchange] are. *)
Fixpoint dotless (s : string) : bool :=
  match s with
  | EmptyString => true
  | String c s' => negb (Ascii.eqb c dot) && dotless s'
  end.

(** * Properties *)

(** ** Construction *)

Lemma set_pos_data_same s : Strategy.set_pos_data (Strategy.pos_data s) s = s.
Proof. by destruct s. Qed.

Lemma set_self_same e : set_self (self e) e = e.
Proof. by destruct e. Qed.

Lemma get_pos_unfold vt_symbol e : get_pos vt_symbol e = Ok (position vt_symbol e) e.
Proof.
  unfold get_pos, Py.dict_get, position.
  by rewrite set_pos_data_same, set_self_same.
Qed.

(** [update_setting] writes attributes only: the fields that [__init__]
    created stay as they are. *)
Lemma update_setting_same_fields cls setting s :
  same_fields s (update_setting cls setting s).
Proof.
  unfold update_setting. revert s.
  induction (StrategyClass.parameters cls) as [|name names IH]; intros s; simpl.
  - by repeat split.
  - destruct (setting !! name) as [v|]; [|apply IH].
    destruct (IH (setattr name v s)) as (?&?&?&?&?&?&?).
    by repeat split.
Qed.

Lemma fresh_env_fields cls strategy_name vt_symbols setting :
  let s := self (fresh_env cls strategy_name vt_symbols setting) in
  Strategy.inited s = false ∧ Strategy.trading s = false
  ∧ Strategy.pos_data s = ∅ ∧ Strategy.active_orderids s = ∅
  ∧ Strategy.variables s = None.
Proof.
  unfold fresh_env, __init__; simpl.
  match goal with |- context [update_setting _ _ ?s0] =>
    destruct (update_setting_same_fields cls setting s0) as (_&_&<-&<-&<-&<-&<-) end.
  done.
Qed.

(** ** Positions *)

Lemma defaultdict_getitem_value d k :
  (Py.defaultdict_getitem d k).1 = default IntZero (d !! k).
Proof. unfold Py.defaultdict_getitem. by destruct (d !! k). Qed.

Lemma defaultdict_getitem_other d k k' :
  k ≠ k' → (Py.defaultdict_getitem d k).2 !! k' = d !! k'.
Proof.
  intros Hne. unfold Py.defaultdict_getitem.
  destruct (d !! k); simpl; [done|]. by rewrite lookup_insert_ne.
Qed.

Lemma update_trade_unfold cls trade e :
  update_trade cls trade e = self_on_trade cls trade (booked trade e).
Proof.
  unfold update_trade, booked, book, Py.dict_setitem.
  pose proof (defaultdict_getitem_value (Strategy.pos_data (self e))
                (TradeData.vt_symbol trade)) as Hv.
  destruct (Py.defaultdict_getitem _ _) as [old d]; simpl in *. subst old.
  destruct (TradeData.direction trade); simpl; try done.
Qed.

Lemma position_booked_same trade e :
  position (TradeData.vt_symbol trade) (booked trade e)
  = book (position (TradeData.vt_symbol trade) e) trade.
Proof. unfold position, booked; simpl. by rewrite lookup_insert_eq. Qed.

Lemma pos_data_booked_other trade e k :
  k ≠ TradeData.vt_symbol trade →
  Strategy.pos_data (self (booked trade e)) !! k = Strategy.pos_data (self e) !! k.
Proof.
  intros Hne. unfold booked; simpl.
  rewrite lookup_insert_ne by done. by apply defaultdict_getitem_other.
Qed.

Lemma update_trade_position_same cls trade e :
  on_trade_keeps_positions cls →
  position (TradeData.vt_symbol trade) (env_of (update_trade cls trade e))
  = book (position (TradeData.vt_symbol trade) e) trade.
Proof.
  intros Hk. rewrite update_trade_unfold. unfold position at 1.
  rewrite Hk. apply position_booked_same.
Qed.

Lemma update_trade_pos_data_other cls trade e k :
  on_trade_keeps_positions cls →
  k ≠ TradeData.vt_symbol trade →
  Strategy.pos_data (self (env_of (update_trade cls trade e))) !! k
  = Strategy.pos_data (self e) !! k.
Proof.
  intros Hk Hne. rewrite update_trade_unfold, Hk.
  by apply pos_data_booked_other.
Qed.

Lemma deliver_trades_position cls trades e k :
  on_trade_keeps_positions cls →
  position k (deliver_trades cls trades e)
  = accumulate (position k e) (trades_on k trades).
Proof.
  intros Hk. revert e. unfold deliver_trades, accumulate, trades_on.
  induction trades as [|trade trades IH]; intros e; [done|].
  cbn [foldl]. rewrite IH, filter_cons. case_decide as Hsym.
  - subst k. cbn [foldl]. by rewrite update_trade_position_same.
  - f_equal. unfold position. f_equal.
    by apply update_trade_pos_data_other.
Qed.

(** C1, as the code has it.  Volumes are floats.  However the trades on
    other instruments are interleaved, the position recorded for an
    instrument after a sequence of [update_trade] calls is what results
    from booking the trades on that instrument, in their order of
    arrival, on the position before (a long trade adds its volume, a
    short trade subtracts it, each step a binary64 operation), starting
    from 0 on a fresh instance; two sequences with the same trades on
    the instrument in the same order leave the same position; and each
    single [update_trade] books the trade on the position of the traded
    instrument and leaves every other entry of the map as it was.  The
    user's [on_trade] is assumed not to write the map. *)
Theorem update_trade_positions_reconcile cls (trades : list TradeData.t) (e : Env) (k : string) :
  on_trade_keeps_positions cls →
  position k (deliver_trades cls trades e)
  = accumulate (position k e) (trades_on k trades)
  ∧ (∀ strategy_name vt_symbols setting,
       wf_class cls →
       position k (deliver_trades cls trades (fresh_env cls strategy_name vt_symbols setting))
       = accumulate IntZero (trades_on k trades))
  ∧ (∀ trades', trades_on k trades' = trades_on k trades →
       position k (deliver_trades cls trades' e) = position k (deliver_trades cls trades e))
  ∧ (∀ trade e0,
       position (TradeData.vt_symbol trade) (env_of (update_trade cls trade e0))
       = book (position (TradeData.vt_symbol trade) e0) trade
       ∧ ∀ k', k' ≠ TradeData.vt_symbol trade →
           Strategy.pos_data (self (env_of (update_trade cls trade e0))) !! k'
           = Strategy.pos_data (self e0) !! k').
Proof.
  intros Hk. split; [by apply deliver_trades_position|]. split; [|split].
  - intros strategy_name vt_symbols setting _.
    rewrite deliver_trades_position by done. unfold position at 1.
    destruct (fresh_env_fields cls strategy_name vt_symbols setting) as (_&_&->&_).
    by rewrite lookup_empty.
  - intros trades' Heq. rewrite !deliver_trades_position by done. by rewrite Heq.
  - intros trade e0. split.
    + by apply update_trade_position_same.
    + intros k' Hne. by apply update_trade_pos_data_other.
Qed.

Lemma template_on_trade_keeps_positions : on_trade_keeps_positions StrategyTemplate.
Proof. intros trade e. reflexivity. Qed.

(** On a fresh instance of the template, a long 0.5 and a short 0.25 on
    BTCUSDT with a short 7 on ETHUSDT in between leave BTCUSDT at
    0.25. *)
Lemma update_trade_positions_reconcile_witness :
  on_trade_keeps_positions StrategyTemplate
  ∧ position "BTCUSDT.BINANCE"
      (deliver_trades StrategyTemplate example_trades
         (fresh_env StrategyTemplate "demo" ["BTCUSDT.BINANCE"; "ETHUSDT.BINANCE"] ∅))
    = Float 0.25%float.
Proof.
  split.
  - intros trade e. reflexivity.
  - refine (proj1 (update_trade_positions_reconcile StrategyTemplate example_trades
             (fresh_env StrategyTemplate "demo" ["BTCUSDT.BINANCE"; "ETHUSDT.BINANCE"] ∅)
             "BTCUSDT.BINANCE" _)).
    intros trade e. reflexivity.
Defined.

(** C1 as stated fails: a sum does not depend on the order of its terms,
    the recorded position does.  The long fills of 0.1, 0.2 and 0.3 on
    BTCUSDT leave 0.6000000000000001 on a fresh instance of the
    template; the same three fills in the opposite order leave 0.6. *)
Lemma update_trade_position_depends_on_order :
  trades_on "BTCUSDT.BINANCE" (reverse fractional_fills) ≡ₚ
    trades_on "BTCUSDT.BINANCE" fractional_fills
  ∧ position "BTCUSDT.BINANCE"
      (deliver_trades StrategyTemplate fractional_fills
         (fresh_env StrategyTemplate "demo" ["BTCUSDT.BINANCE"] ∅))
    ≠ position "BTCUSDT.BINANCE"
        (deliver_trades StrategyTemplate (reverse fractional_fills)
           (fresh_env StrategyTemplate "demo" ["BTCUSDT.BINANCE"] ∅)).
Proof.
  split.
  - change (trades_on "BTCUSDT.BINANCE" (reverse fractional_fills))
      with (reverse fractional_fills).
    change (trades_on "BTCUSDT.BINANCE" fractional_fills) with fractional_fills.
    apply reverse_Permutation.
  - intros Heq. apply (f_equal as_float) in Heq.
    apply (f_equal (λ f, PrimFloat.eqb f (as_float (position "BTCUSDT.BINANCE"
             (deliver_trades StrategyTemplate (reverse fractional_fills)
                (fresh_env StrategyTemplate "demo" ["BTCUSDT.BINANCE"] ∅)))))) in Heq.
    vm_compute in Heq. discriminate.
Qed.

Lemma deliver_trades_untraded cls trades e k :
  on_trade_keeps_positions cls →
  trades_on k trades = [] →
  Strategy.pos_data (self (deliver_trades cls trades e)) !! k = Strategy.pos_data (self e) !! k.
Proof.
  intros Hk. revert e. unfold deliver_trades, trades_on.
  induction trades as [|trade trades IH]; intros e Hnone; simpl; [done|].
  rewrite filter_cons in Hnone. case_decide as Hsym; [done|].
  rewrite IH by done. apply update_trade_pos_data_other; [done|congruence].
Qed.

(** C9.  [get_pos] returns the quantity recorded in the position map for
    the instrument, and 0 when the map has no entry for it, which is the
    case on an instance that has seen no trade on the instrument; the
    call leaves the instance as it was, so no entry is inserted. *)
Theorem get_pos_reads_position (vt_symbol : string) (e : Env) :
  (∀ q, Strategy.pos_data (self e) !! vt_symbol = Some q → get_pos vt_symbol e = Ok q e)
  ∧ (Strategy.pos_data (self e) !! vt_symbol = None → get_pos vt_symbol e = Ok IntZero e)
  ∧ (∀ cls strategy_name vt_symbols setting trades,
       wf_class cls →
       on_trade_keeps_positions cls →
       trades_on vt_symbol trades = [] →
       let e' := deliver_trades cls trades (fresh_env cls strategy_name vt_symbols setting) in
       get_pos vt_symbol e' = Ok IntZero e'
       ∧ vt_symbol ∉ dom (Strategy.pos_data (self (env_of (get_pos vt_symbol e'))))).
Proof.
  split; [|split].
  - intros q Hq. rewrite get_pos_unfold. unfold position. by rewrite Hq.
  - intros Hq. rewrite get_pos_unfold. unfold position. by rewrite Hq.
  - intros cls strategy_name vt_symbols setting trades _ Hk Hnone e'.
    assert (Strategy.pos_data (self e') !! vt_symbol = None) as Hfree.
    { unfold e'. rewrite deliver_trades_untraded by done.
      destruct (fresh_env_fields cls strategy_name vt_symbols setting) as (_&_&->&_).
      done. }
    rewrite get_pos_unfold. unfold position. rewrite Hfree. simpl.
    split; [done|]. by apply not_elem_of_dom.
Qed.

(** ** Commands while the strategy is not trading *)

Lemma for_in_active_orderids_not_trading engine pos remaining e :
  Strategy.trading (self e) = false →
  for_in_active_orderids (cancel_order engine)
    (size (Strategy.active_orderids (self e))) pos remaining e = Ok tt e.
Proof.
  intros Hoff. revert pos.
  induction remaining as [|remaining IH]; intros pos; simpl.
  - by rewrite Nat.eqb_refl.
  - rewrite Nat.eqb_refl; simpl.
    destruct (elements _ !! pos) as [vt_orderid|]; [|done].
    unfold cancel_order at 1. rewrite Hoff. apply IH.
Qed.

(** C4.  While the trading flag is false, as it is right after the
    construction of a well-formed class (when [inited] is false too),
    [send_order] and its four wrappers return the empty list and leave
    the instance and the trace of engine requests as they were: no
    request is made and the active-order set is unchanged;
    [cancel_order] and [cancel_all] likewise make no request. *)
Theorem not_trading_commands_do_nothing engine (e : Env) :
  Strategy.trading (self e) = false →
  (∀ vt_symbol direction offset price volume lock net,
     send_order engine vt_symbol direction offset price volume lock net e = Ok [] e)
  ∧ (∀ vt_symbol price volume lock net,
       buy engine vt_symbol price volume lock net e = Ok [] e
       ∧ sell engine vt_symbol price volume lock net e = Ok [] e
       ∧ short engine vt_symbol price volume lock net e = Ok [] e
       ∧ cover engine vt_symbol price volume lock net e = Ok [] e)
  ∧ (∀ vt_orderid, cancel_order engine vt_orderid e = Ok tt e)
  ∧ cancel_all engine e = Ok tt e
  ∧ (∀ cls strategy_name vt_symbols setting,
       wf_class cls →
       let s := __init__ cls strategy_name vt_symbols setting in
       Strategy.inited s = false ∧ Strategy.trading s = false).
Proof.
  intros Hoff.
  assert (∀ vt_symbol direction offset price volume lock net,
            send_order engine vt_symbol direction offset price volume lock net e = Ok [] e)
    as Hsend.
  { intros. unfold send_order. by rewrite Hoff. }
  repeat split.
  - apply Hsend.
  - apply Hsend.
  - apply Hsend.
  - apply Hsend.
  - apply Hsend.
  - unfold cancel_order. by rewrite Hoff.
  - unfold cancel_all. by apply for_in_active_orderids_not_trading.
  - by destruct (fresh_env_fields cls strategy_name vt_symbols setting) as (?&_).
  - by destruct (fresh_env_fields cls strategy_name vt_symbols setting) as (_&?&_).
Qed.

(** A fresh instance of the template is not trading: every command on it
    is refused. *)
Lemma not_trading_commands_do_nothing_witness :
  Strategy.trading (self (fresh_env StrategyTemplate "demo" ["BTCUSDT.BINANCE"] ∅)) = false
  ∧ buy confirming_engine "BTCUSDT.BINANCE" 100%float 1%float false false
        (fresh_env StrategyTemplate "demo" ["BTCUSDT.BINANCE"] ∅)
    = Ok [] (fresh_env StrategyTemplate "demo" ["BTCUSDT.BINANCE"] ∅).
Proof.
  split; [reflexivity|].
  apply (not_trading_commands_do_nothing confirming_engine
           (fresh_env StrategyTemplate "demo" ["BTCUSDT.BINANCE"] ∅)).
  reflexivity.
Defined.

(** ** Cancelling every active order *)

Lemma cancel_requests_app vt_orderid cs cs' :
  cancel_requests vt_orderid (cs ++ cs')
  = cancel_requests vt_orderid cs + cancel_requests vt_orderid cs'.
Proof. induction cs as [|c cs IH]; simpl; [done|]. rewrite IH. lia. Qed.

Lemma cancel_requests_absent vt_orderid (ids : list string) :
  vt_orderid ∉ ids → cancel_requests vt_orderid (CancelOrderCall <$> ids) = 0.
Proof.
  induction ids as [|id ids IH]; intros Hnot; [done|].
  apply not_elem_of_cons in Hnot as [Hne Hnot].
  rewrite fmap_cons. cbn [cancel_requests is_cancel_of].
  rewrite bool_decide_eq_false_2 by congruence. by rewrite IH.
Qed.

Lemma cancel_requests_NoDup vt_orderid (ids : list string) :
  NoDup ids →
  cancel_requests vt_orderid (CancelOrderCall <$> ids)
  = if bool_decide (vt_orderid ∈ ids) then 1 else 0.
Proof.
  induction 1 as [|id ids Hfresh Hnodup IH]; [done|].
  rewrite fmap_cons. cbn [cancel_requests is_cancel_of].
  destruct (decide (id = vt_orderid)) as [->|Hne].
  - rewrite bool_decide_eq_true_2 by done.
    rewrite cancel_requests_absent by done.
    by rewrite bool_decide_eq_true_2 by apply list_elem_of_here.
  - rewrite bool_decide_eq_false_2 by done. rewrite IH. simpl.
    rewrite (bool_decide_ext (vt_orderid ∈ id :: ids) (vt_orderid ∈ ids)); [done|].
    rewrite elem_of_cons. split; [|by right]. by intros [->|?].
Qed.

(** The loop of [cancel_all] from position [pos] on, with an engine that
    leaves the set alone: one request for each remaining element. *)
Lemma for_in_active_orderids_cancel engine remaining pos e :
  cancel_returns_before_callbacks engine →
  Strategy.trading (self e) = true →
  pos + remaining = size (Strategy.active_orderids (self e)) →
  ∃ e',
    for_in_active_orderids (cancel_order engine)
      (size (Strategy.active_orderids (self e))) pos remaining e = Ok tt e'
    ∧ Strategy.active_orderids (self e') = Strategy.active_orderids (self e)
    ∧ calls e' = calls e
                 ++ (CancelOrderCall <$> drop pos (elements (Strategy.active_orderids (self e)))).
Proof.
  intros Hengine. revert pos e.
  induction remaining as [|remaining IH]; intros pos e Hon Hlen; simpl.
  - rewrite Nat.eqb_refl; simpl. exists e. split; [done|]. split; [done|].
    rewrite drop_ge; [by rewrite app_nil_r|].
    unfold size, set_size in Hlen; simpl in Hlen. lia.
  - rewrite Nat.eqb_refl; simpl.
    destruct (elements (Strategy.active_orderids (self e)) !! pos)
      as [vt_orderid|] eqn:Hat.
    2: { apply lookup_ge_None in Hat.
         unfold size, set_size in Hlen; simpl in Hlen. lia. }
    unfold cancel_order at 1. rewrite Hon.
    set (e1 := set_self _ _).
    destruct (Hengine (self e) vt_orderid) as [Hset Htrading].
    assert (Strategy.active_orderids (self e1) = Strategy.active_orderids (self e))
      as Hset1 by (subst e1; simpl; done).
    destruct (IH (S pos) e1) as (e' & Hrun & Hset' & Hcalls).
    { subst e1; simpl. by rewrite Htrading. }
    { rewrite Hset1. lia. }
    rewrite Hset1 in Hrun, Hcalls. exists e'. split; [done|].
    split; [by rewrite Hset'|].
    rewrite Hcalls. subst e1; simpl.
    rewrite (drop_S _ _ _ Hat), fmap_cons, <- app_assoc. done.
Qed.

(** X15.  While trading is true and the engine's [cancel_order] returns
    with the active-order set and the trading flag untouched,
    [cancel_all] returns normally, leaves the set as it was, and the
    requests it made are cancel requests only: exactly one for each
    identifier that was in the set when the call began, none for any
    other. *)
Theorem cancel_all_requests_each_active_order engine (e : Env) :
  cancel_returns_before_callbacks engine →
  Strategy.trading (self e) = true →
  ∃ e' requests,
    cancel_all engine e = Ok tt e'
    ∧ Strategy.active_orderids (self e') = Strategy.active_orderids (self e)
    ∧ calls e' = calls e ++ requests
    ∧ (∀ c, c ∈ requests → ∃ vt_orderid, c = CancelOrderCall vt_orderid)
    ∧ ∀ vt_orderid,
        cancel_requests vt_orderid requests
        = if bool_decide (vt_orderid ∈ Strategy.active_orderids (self e)) then 1 else 0.
Proof.
  intros Hengine Hon. unfold cancel_all.
  destruct (for_in_active_orderids_cancel engine
              (size (Strategy.active_orderids (self e))) 0 e Hengine Hon eq_refl)
    as (e' & Hrun & Hset & Hcalls).
  rewrite drop_0 in Hcalls.
  exists e', (CancelOrderCall <$> elements (Strategy.active_orderids (self e))).
  split; [done|]. split; [done|]. split; [done|]. split.
  - intros c (vt_orderid & -> & _)%list_elem_of_fmap. by exists vt_orderid.
  - intros vt_orderid. rewrite cancel_requests_NoDup by apply NoDup_elements.
    by rewrite (bool_decide_ext _ _ (elem_of_elements _ vt_orderid)).
Qed.

Lemma queueing_engine_returns_before_callbacks :
  cancel_returns_before_callbacks queueing_engine.
Proof. intros s vt_orderid. by split. Qed.

(** With the queueing engine, the instance that tracks BTC-1 and BTC-2
    requests the cancellation of each, once. *)
Lemma cancel_all_requests_each_active_order_witness :
  cancel_returns_before_callbacks queueing_engine
  ∧ Strategy.trading (self (two_orders_env StrategyTemplate)) = true
  ∧ ∃ e' requests,
      cancel_all queueing_engine (two_orders_env StrategyTemplate) = Ok tt e'
      ∧ Strategy.active_orderids (self e')
        = Strategy.active_orderids (self (two_orders_env StrategyTemplate))
      ∧ calls e' = calls (two_orders_env StrategyTemplate) ++ requests
      ∧ (∀ c, c ∈ requests → ∃ vt_orderid, c = CancelOrderCall vt_orderid)
      ∧ ∀ vt_orderid,
          cancel_requests vt_orderid requests
          = if bool_decide
                 (vt_orderid ∈ Strategy.active_orderids (self (two_orders_env StrategyTemplate)))
            then 1 else 0.
Proof.
  split; [|split].
  - intros s vt_orderid. split; reflexivity.
  - reflexivity.
  - apply (cancel_all_requests_each_active_order queueing_engine
             (two_orders_env StrategyTemplate)).
    + intros s vt_orderid. split; reflexivity.
    + reflexivity.
Defined.

(** C7, evaluated on the code.  [cancel_all] iterates the set itself,
    not a copy of it.  With an engine that confirms a cancellation
    before [cancel_order] returns, the instance that tracks BTC-1 and
    BTC-2 makes one cancel request, finds the set changed at the next
    step of the loop and raises [RuntimeError]; the other identifier, a
    member of the set when the call began, is never requested (here
    BTC-2: the order of [elements] puts BTC-1 first). *)
Lemma cancel_all_iterates_live_set :
  Strategy.trading (self (two_orders_env StrategyTemplate)) = true
  ∧ raised (cancel_all confirming_engine (two_orders_env StrategyTemplate))
    = Some RuntimeError
  ∧ length (calls (env_of (cancel_all confirming_engine (two_orders_env StrategyTemplate))))
    = 1
  ∧ ∃ vt_orderid,
      vt_orderid ∈ Strategy.active_orderids (self (two_orders_env StrategyTemplate))
      ∧ cancel_requests vt_orderid
          (calls (env_of (cancel_all confirming_engine (two_orders_env StrategyTemplate))))
        = 0.
Proof.
  split; [reflexivity|]. split; [vm_compute; reflexivity|].
  split; [vm_compute; reflexivity|].
  exists "BTC-2". split.
  - apply (bool_decide_unpack _). vm_compute. exact I.
  - vm_compute. reflexivity.
Qed.

(** ** Applying a setting *)

Lemma update_setting_attrs cls (setting : gmap string pyval) s name :
  Strategy.attrs (update_setting cls setting s) !! name
  = if bool_decide (name ∈ StrategyClass.parameters cls)
    then from_option Some (Strategy.attrs s !! name) (setting !! name)
    else Strategy.attrs s !! name.
Proof.
  unfold update_setting. revert s.
  induction (StrategyClass.parameters cls) as [|p ps IH]; intros s; simpl.
  - done.
  - rewrite IH. clear IH.
    destruct (decide (name = p)) as [->|Hne].
    + rewrite (bool_decide_eq_true_2 (p ∈ p :: ps)) by apply list_elem_of_here.
      destruct (setting !! p) as [v|] eqn:Hp; simpl.
      * rewrite lookup_insert_eq. by destruct (bool_decide (p ∈ ps)).
      * by destruct (bool_decide (p ∈ ps)).
    + rewrite (bool_decide_ext (name ∈ p :: ps) (name ∈ ps)).
      2: { rewrite elem_of_cons. split; [|by right]. by intros [?|?]. }
      destruct (setting !! p) as [v|]; [|done]. simpl.
      by rewrite lookup_insert_ne.
Qed.

Lemma getattr_stored_attribute cls s name v :
  Strategy.attrs s !! name = Some v → getattr cls s name = inr v.
Proof.
  intros Hv. unfold getattr.
  by rewrite (lookup_union_Some_l _ _ _ _ Hv).
Qed.

Lemma getattr_same_fields cls s s' name :
  same_fields s s' →
  Strategy.attrs s' !! name = Strategy.attrs s !! name →
  getattr cls s' name = getattr cls s name.
Proof.
  intros (H1&H2&H3&H4&H5&H6&H7) Hattrs. unfold getattr.
  assert (instance_fields s' = instance_fields s) as ->.
  { unfold instance_fields. by rewrite H1, H2, H3, H4, H5, H6, H7. }
  rewrite !lookup_union, Hattrs. done.
Qed.

(** C8.  Applying a setting, through [update_setting] or at construction,
    assigns to every attribute that is both a declared parameter and a
    key of the setting the value the setting gives it, and it never
    fails; every other attribute reads as before: a key of the setting
    that is not a declared parameter creates or changes no attribute,
    a declared parameter that the setting does not name keeps its value,
    and so does every attribute that is not a declared parameter. *)
Theorem update_setting_assigns_declared_parameters cls (setting : gmap string pyval)
    (s : Strategy.t) :
  (∀ name v,
     name ∈ StrategyClass.parameters cls → setting !! name = Some v →
     getattr cls (update_setting cls setting s) name = inr v)
  ∧ (∀ name,
       ¬ (name ∈ StrategyClass.parameters cls ∧ is_Some (setting !! name)) →
       getattr cls (update_setting cls setting s) name = getattr cls s name)
  ∧ (∀ strategy_name vt_symbols name v,
       name ∈ StrategyClass.parameters cls → setting !! name = Some v →
       getattr cls (__init__ cls strategy_name vt_symbols setting) name = inr v).
Proof.
  assert (∀ s0 name v,
            name ∈ StrategyClass.parameters cls → setting !! name = Some v →
            getattr cls (update_setting cls setting s0) name = inr v) as Hset.
  { intros s0 name v Hparam Hv.
    apply getattr_stored_attribute.
    rewrite update_setting_attrs, bool_decide_eq_true_2 by done.
    by rewrite Hv. }
  split; [apply Hset|]. split.
  - intros name Hnot.
    apply getattr_same_fields; [apply update_setting_same_fields|].
    rewrite update_setting_attrs. case_bool_decide as Hparam; [|done].
    destruct (setting !! name) as [v|] eqn:Hv; [|done].
    exfalso. apply Hnot. split; [done|]. by exists v.
  - intros strategy_name vt_symbols name v. unfold __init__. apply Hset.
Qed.

Lemma DemoStrategy_wf : wf_class DemoStrategy.
Proof. apply (bool_decide_unpack _). vm_compute. exact I. Qed.

(** Constructing [DemoStrategy] with a setting for [fast_window] and for
    an unknown key: [fast_window] takes the setting's value, the
    parameter the setting does not name keeps the default of the class,
    and the unknown key has created no attribute. *)
Example DemoStrategy_construction :
  let s := __init__ DemoStrategy "demo" ["BTCUSDT.BINANCE"] demo_setting in
  getattr DemoStrategy s "fast_window" = inr (VInt 5)
  ∧ getattr DemoStrategy s "slow_window" = inr (VInt 20)
  ∧ getattr DemoStrategy s "trading" = inr (VBool false)
  ∧ getattr DemoStrategy s "unknown" = inl AttributeError
  ∧ get_parameters DemoStrategy s = inr [("fast_window", VInt 5); ("slow_window", VInt 20)].
Proof. vm_compute. done. Qed.

(** ** The variable list *)

(** C5, evaluated on the code.  [list.extend] returns [None], and line 46
    stores that result: after construction (of a class whose parameters
    are attributes of its own, so that the setting cannot reach the
    attribute) [variables] is [None], not the list of names, and
    [get_variables], which iterates it, raises [TypeError]. *)
Theorem variables_is_None_after_init cls strategy_name vt_symbols setting :
  wf_class cls →
  Strategy.variables (__init__ cls strategy_name vt_symbols setting) = None
  ∧ get_variables cls (__init__ cls strategy_name vt_symbols setting) = inl TypeError.
Proof.
  intros _.
  destruct (fresh_env_fields cls strategy_name vt_symbols setting) as (_&_&_&_&Hvars).
  unfold fresh_env in Hvars; simpl in Hvars. unfold get_variables.
  by rewrite Hvars.
Qed.

(** [DemoStrategy] declares the variable [fast_ma]; its instances have no
    variable list at all. *)
Lemma variables_is_None_after_init_witness :
  wf_class DemoStrategy
  ∧ Strategy.variables (__init__ DemoStrategy "demo" ["BTCUSDT.BINANCE"] demo_setting) = None
  ∧ get_variables DemoStrategy (__init__ DemoStrategy "demo" ["BTCUSDT.BINANCE"] demo_setting)
    = inl TypeError.
Proof.
  split.
  - apply (bool_decide_unpack _). vm_compute. exact I.
  - apply (variables_is_None_after_init DemoStrategy "demo" ["BTCUSDT.BINANCE"] demo_setting).
    apply (bool_decide_unpack _). vm_compute. exact I.
Defined.

(** What line 46 drops: the receiver of [extend] holds the built-in names
    followed by the names the class declares. *)
Example list_extend_receiver :
  Py.list_extend ["inited"; "trading"; "pos_data"] (StrategyClass.variables DemoStrategy)
  = (None, ["inited"; "trading"; "pos_data"; "fast_ma"]).
Proof. reflexivity. Qed.

(** ** Order callbacks *)

Lemma difference_singleton_absent (a : gset string) (x : string) :
  x ∉ a → a ∖ {[x]} = a.
Proof. intros Hnot. by apply difference_disjoint_L, disjoint_singleton_r. Qed.

Lemma set_active_orderids_same s :
  Strategy.set_active_orderids (Strategy.active_orderids s) s = s.
Proof. by destruct s. Qed.

(** Lines 137-140 never fail: the membership test guards [set.remove]. *)
Lemma on_order_discard_unfold order e :
  on_order_discard order e = Ok tt (discarded order e).
Proof.
  unfold on_order_discard, discarded, Py.set_remove.
  destruct (OrderData.is_active order); simpl; [done|].
  case_bool_decide as Hin; [done|].
  by rewrite difference_singleton_absent, set_active_orderids_same, set_self_same.
Qed.

Lemma discarded_active order e :
  Strategy.active_orderids (self (discarded order e))
  = if OrderData.is_active order then Strategy.active_orderids (self e)
    else Strategy.active_orderids (self e) ∖ {[OrderData.vt_orderid order]}.
Proof. unfold discarded. by destruct (OrderData.is_active order). Qed.

Lemma discarded_untracked order e :
  OrderData.vt_orderid order ∉ Strategy.active_orderids (self e) →
  discarded order e = e.
Proof.
  intros Hnot. unfold discarded. destruct (OrderData.is_active order); [done|].
  by rewrite difference_singleton_absent, set_active_orderids_same, set_self_same.
Qed.

Lemma discarded_twice order e :
  discarded order (discarded order e) = discarded order e.
Proof.
  destruct (OrderData.is_active order) eqn:Hact.
  - unfold discarded. by rewrite Hact.
  - apply discarded_untracked. rewrite discarded_active, Hact.
    rewrite elem_of_difference, elem_of_singleton. by intros [_ ?].
Qed.

(** Without an override, [on_order] runs lines 137-140 and then calls
    itself until the frames are used up. *)
Lemma on_order_inherited cls depth order e :
  StrategyClass.on_order cls = None →
  on_order cls depth order e
  = Raise RecursionError (match depth with O => e | S _ => discarded order e end).
Proof.
  intros Hnone. revert e.
  induction depth as [|depth IH]; intros e; [done|].
  cbn [on_order]. unfold mbind, M_bind.
  rewrite on_order_discard_unfold, Hnone, IH.
  destruct depth; [done|]. by rewrite discarded_twice.
Qed.

(** C3, evaluated on the code.  For a class that does not override
    [on_order] (the template itself, or a strategy that has no use for
    order callbacks) the entry point never returns: whatever the
    recursion limit, the call ends in [RecursionError], both when it is
    written [strategy.on_order(order)] and when the template's method is
    called directly.  Line 122, the hook that does nothing, was replaced
    by line 135 when the class body ran, and is never invoked. *)
Theorem on_order_calls_itself cls (depth : nat) (order : OrderData.t) (e : Env) :
  StrategyClass.on_order cls = None →
  raised (self_on_order cls depth order e) = Some RecursionError
  ∧ raised (on_order cls depth order e) = Some RecursionError.
Proof.
  intros Hnone. unfold self_on_order. rewrite Hnone.
  by rewrite on_order_inherited.
Qed.

(** The template with CPython's default limit of 1000 frames. *)
Lemma on_order_calls_itself_witness :
  StrategyClass.on_order StrategyTemplate = None
  ∧ raised (self_on_order StrategyTemplate 1000 (OrderData.Build "BTC-1" Status.NOTTRADED)
              (two_orders_env StrategyTemplate)) = Some RecursionError.
Proof.
  split; [reflexivity|].
  apply (on_order_calls_itself StrategyTemplate 1000
           (OrderData.Build "BTC-1" Status.NOTTRADED) (two_orders_env StrategyTemplate)).
  reflexivity.
Defined.

(** C2, evaluated on the code.  On a fresh instance of the template,
    which tracks no order, the callback for a cancelled order leaves the
    set unchanged but ends in [RecursionError], whatever the recursion
    limit.  And a subclass that overrides [on_order] hides the
    template's method: the callback for a tracked, cancelled order runs
    the override only and the identifier stays in the set. *)
Theorem on_order_terminal_status_on_code (depth : nat) :
  on_order StrategyTemplate depth (cancelled_order "BTC-1")
    (fresh_env StrategyTemplate "demo" ["BTCUSDT.BINANCE"] ∅)
  = Raise RecursionError (fresh_env StrategyTemplate "demo" ["BTCUSDT.BINANCE"] ∅)
  ∧ self_on_order PassiveStrategy (S depth) (cancelled_order "BTC-1")
      (two_orders_env PassiveStrategy)
    = Ok tt (two_orders_env PassiveStrategy)
  ∧ "BTC-1" ∈ Strategy.active_orderids (self (two_orders_env PassiveStrategy)).
Proof.
  split; [|split].
  - rewrite on_order_inherited by done. f_equal.
    destruct depth; [done|]. by apply discarded_untracked.
  - reflexivity.
  - apply (bool_decide_unpack _). vm_compute. exact I.
Qed.

(** The scenario of the spec on the template: a buy of 1 is acknowledged
    as BTC-1 and tracked, the long fill of 1 puts the position at 1, and
    the callback for the filled order takes BTC-1 out of the set, but
    ends in [RecursionError]. *)
Example submit_fill_and_close :
  let r1 := buy acknowledging_engine "BTCUSDT.BINANCE" 100%float 1%float false false
              (started_env StrategyTemplate) in
  let e2 := env_of (update_trade StrategyTemplate
                      (TradeData.Build "BTCUSDT.BINANCE" Direction.LONG 1%float)
                      (env_of r1)) in
  let r3 := self_on_order StrategyTemplate 1000
              (OrderData.Build "BTC-1" Status.ALLTRADED) e2 in
  r1 = Ok ["BTC-1"] (env_of r1)
  ∧ Strategy.active_orderids (self (env_of r1)) = {["BTC-1"]}
  ∧ position "BTCUSDT.BINANCE" e2 = Float 1%float
  ∧ Strategy.active_orderids (self (env_of r3)) = ∅
  ∧ raised r3 = Some RecursionError.
Proof. vm_compute. done. Qed.

(** X1.  Lines 137-140 over a sequence of order callbacks: no callback
    raises, and an identifier is in the set afterwards exactly when it
    was in the set before and no callback with a status that is not
    active has arrived for it.  So a tracked identifier leaves the set
    at its first terminal status, and a terminal status for an
    identifier that is not (or no longer) tracked changes nothing. *)
Lemma discard_all_active (orders : list OrderData.t) (e : Env) (vt_orderid : string) :
  (∀ order e0, raised (on_order_discard order e0) = None)
  ∧ (vt_orderid ∈ Strategy.active_orderids (self (discard_all orders e))
     ↔ vt_orderid ∈ Strategy.active_orderids (self e)
       ∧ ∀ order, order ∈ orders → OrderData.vt_orderid order = vt_orderid →
                  OrderData.is_active order = true)
  ∧ (∀ order, OrderData.vt_orderid order ∉ Strategy.active_orderids (self e) →
              on_order_discard order e = Ok tt e).
Proof.
  split; [|split].
  - intros order e0. by rewrite on_order_discard_unfold.
  - unfold discard_all. revert e.
    induction orders as [|order orders IH]; intros e; simpl.
    + split; [|by intros [? _]]. intros Hin. split; [done|].
      by intros order ?%elem_of_nil.
    + rewrite IH, on_order_discard_unfold. simpl. rewrite discarded_active. split.
      * intros [Hin Hrest]. destruct (OrderData.is_active order) eqn:Hact.
        -- split; [done|]. intros order' [->|?]%elem_of_cons; [done|by apply Hrest].
        -- apply elem_of_difference in Hin as [Hin Hne].
           rewrite elem_of_singleton in Hne. split; [done|].
           intros order' [->|?]%elem_of_cons; [congruence|by apply Hrest].
      * intros [Hin Hall]. split.
        -- destruct (OrderData.is_active order) eqn:Hact; [done|].
           apply elem_of_difference. split; [done|]. rewrite elem_of_singleton.
           intros Heq. specialize (Hall order (list_elem_of_here _ _) (eq_sym Heq)).
           congruence.
        -- intros order' Hin' Heq. apply Hall; [by right|done].
  - intros order Hnot. by rewrite on_order_discard_unfold, discarded_untracked.
Qed.

(** ** [StopOrder] *)

#[local] Arguments Py.new_list : simpl never.

(** [list()] returns an object that was not in the heap, empty, and
    leaves every other object alone. *)
Lemma new_list_spec (h : Py.heap) :
  h !! (Py.new_list h).1 = None
  ∧ (Py.new_list h).2 !! (Py.new_list h).1 = Some []
  ∧ ∀ l, l ≠ (Py.new_list h).1 → (Py.new_list h).2 !! l = h !! l.
Proof.
  unfold Py.new_list, Py.heap, Py.loc in *; simpl. split; [|split].
  - apply not_elem_of_dom, is_fresh.
  - apply lookup_insert_eq.
  - intros l Hne. by rewrite lookup_insert_ne.
Qed.

(** C10.  A [StopOrder] constructed from the nine required arguments
    alone has status WAITING, the empty reason, a [vt_symbol] that is
    the symbol, a dot and the value of the exchange, and a list of
    identifiers that is a new, empty list object: no object of the heap
    before the call, no other list touched.  A second one constructed
    the same way gets a list of its own: appending to the first list
    leaves the second empty. *)
Theorem StopOrder_fresh_defaults (symbol : string) (exchange : Exchange.t)
    (direction : Direction.t) (offset : Offset.t) (price volume : float)
    (stop_orderid strategy_name : string) (datetime : Z) (h : Py.heap) :
  let r := StopOrder.__init__ symbol exchange direction offset price volume
             stop_orderid strategy_name datetime None None None h in
  StopOrder.status r.1 = StopOrderStatus.WAITING
  ∧ StopOrder.reason r.1 = ""
  ∧ StopOrder.vt_symbol r.1 = symbol +:+ "." +:+ Exchange.value exchange
  ∧ h !! StopOrder.vt_orderids r.1 = None
  ∧ r.2 !! StopOrder.vt_orderids r.1 = Some []
  ∧ (∀ l, l ≠ StopOrder.vt_orderids r.1 → r.2 !! l = h !! l)
  ∧ ∀ symbol' exchange' direction' offset' price' volume' stop_orderid' strategy_name'
      datetime' x,
      let r' := StopOrder.__init__ symbol' exchange' direction' offset' price' volume'
                  stop_orderid' strategy_name' datetime' None None None r.2 in
      StopOrder.vt_orderids r'.1 ≠ StopOrder.vt_orderids r.1
      ∧ r'.2 !! StopOrder.vt_orderids r.1 = Some []
      ∧ r'.2 !! StopOrder.vt_orderids r'.1 = Some []
      ∧ Py.list_append (StopOrder.vt_orderids r.1) x r'.2 !! StopOrder.vt_orderids r'.1
        = Some []
      ∧ Py.list_append (StopOrder.vt_orderids r.1) x r'.2 !! StopOrder.vt_orderids r.1
        = Some [x].
Proof.
  cbv zeta. unfold StopOrder.__init__.
  destruct (new_list_spec h) as (Hfresh & Hnew & Hothers).
  destruct (Py.new_list h) as [l h1]. cbn in *.
  split; [done|]. split; [done|]. split; [done|].
  split; [done|]. split; [done|]. split; [done|].
  intros symbol' exchange' direction' offset' price' volume' stop_orderid' strategy_name'
    datetime' x.
  destruct (new_list_spec h1) as (Hfresh' & Hnew' & Hothers').
  destruct (Py.new_list h1) as [l' h2]. cbn in *.
  assert (l' ≠ l) as Hne by congruence.
  split; [done|]. split; [by rewrite Hothers'|]. split; [done|].
  unfold Py.list_append, Py.heap, Py.loc in *. split.
  - by rewrite lookup_alter_ne.
  - rewrite lookup_alter_eq, Hothers' by done. by rewrite Hnew.
Qed.

(** ** The stop-order lifecycle of the spec *)

Section ManagerFacts.

Variable issue_orders : StopOrder.t → list string.

Implicit Types (st : StopOrder.t * Py.heap) (ev : StopOrderManager.event).

Lemma step_settled st ev :
  StopOrder.status st.1 ≠ StopOrderStatus.WAITING →
  StopOrderManager.step issue_orders st ev = st.
Proof.
  intros Hset. destruct st as [so h]; simpl in *.
  destruct ev; simpl; by rewrite bool_decide_eq_false_2.
Qed.

Lemma run_settled evs st :
  StopOrder.status st.1 ≠ StopOrderStatus.WAITING →
  StopOrderManager.run issue_orders evs st = st.
Proof.
  intros Hset. unfold StopOrderManager.run.
  induction evs as [|ev evs IH]; simpl; [done|].
  by rewrite step_settled.
Qed.

Lemma triggerings_settled evs st :
  StopOrder.status st.1 ≠ StopOrderStatus.WAITING →
  StopOrderManager.triggerings issue_orders evs st = 0.
Proof.
  intros Hset. induction evs as [|ev evs IH]; simpl; [done|].
  rewrite step_settled by done. rewrite IH.
  case_bool_decide as Hc; [|done]. destruct Hc as [? ?]. congruence.
Qed.

Lemma triggerings_at_most_once evs st :
  StopOrderManager.triggerings issue_orders evs st ≤ 1.
Proof.
  revert st. induction evs as [|ev evs IH]; intros st; simpl; [lia|].
  destruct (decide (StopOrder.status (StopOrderManager.step issue_orders st ev).1
                    = StopOrderStatus.WAITING)) as [Hw'|Hs'].
  - rewrite bool_decide_eq_false_2 by (intros [_ ?]; congruence).
    specialize (IH (StopOrderManager.step issue_orders st ev)). lia.
  - rewrite triggerings_settled by done. case_bool_decide; lia.
Qed.

End ManagerFacts.

(** C6.  In the lifecycle the spec describes, whatever price data and
    cancellations arrive and whatever the engine returns for the real
    orders: an order moves into Triggered at most once; an order that is
    Cancelled stays Cancelled and never moves into Triggered; and an
    order that is Triggered or Cancelled is left exactly as it is, status
    and list of identifiers included. *)
Theorem stop_order_lifecycle (issue_orders : StopOrder.t → list string)
    (evs : list StopOrderManager.event) (so : StopOrder.t) (h : Py.heap) :
  StopOrderManager.triggerings issue_orders evs (so, h) ≤ 1
  ∧ (StopOrder.status so = StopOrderStatus.CANCELLED →
       StopOrder.status (StopOrderManager.run issue_orders evs (so, h)).1
       = StopOrderStatus.CANCELLED
       ∧ StopOrderManager.triggerings issue_orders evs (so, h) = 0)
  ∧ (StopOrder.status so ≠ StopOrderStatus.WAITING →
       StopOrderManager.run issue_orders evs (so, h) = (so, h)
       ∧ StopOrderManager.triggerings issue_orders evs (so, h) = 0).
Proof.
  split; [apply triggerings_at_most_once|]. split.
  - intros Hc. rewrite run_settled, triggerings_settled; simpl; by rewrite ?Hc.
  - intros Hs. by rewrite run_settled, triggerings_settled.
Qed.

(** The scenario of the spec: a buy-stop with trigger 100 stays Waiting at
    99, is Triggered at 101, and 102 changes nothing more; once
    cancelled, the same order is not triggered by 101. *)
Example buy_stop_scenario :
  let issue := λ _ : StopOrder.t, ["BINANCE.1"] in
  let after evs := StopOrderManager.run issue evs buy_stop_100 in
  StopOrder.status (after [StopOrderManager.PriceData 99%float]).1 = StopOrderStatus.WAITING
  ∧ StopOrder.status
      (after [StopOrderManager.PriceData 99%float; StopOrderManager.PriceData 101%float]).1
    = StopOrderStatus.TRIGGERED
  ∧ after [StopOrderManager.PriceData 99%float; StopOrderManager.PriceData 101%float;
           StopOrderManager.PriceData 102%float]
    = after [StopOrderManager.PriceData 99%float; StopOrderManager.PriceData 101%float]
  ∧ StopOrderManager.triggerings issue
      [StopOrderManager.PriceData 99%float; StopOrderManager.PriceData 101%float;
       StopOrderManager.PriceData 102%float] buy_stop_100 = 1
  ∧ (after [StopOrderManager.PriceData 99%float; StopOrderManager.PriceData 101%float]).2
      !! StopOrder.vt_orderids buy_stop_100.1 = Some ["BINANCE.1"]
  ∧ StopOrder.status
      (after [StopOrderManager.Cancellation; StopOrderManager.PriceData 101%float]).1
    = StopOrderStatus.CANCELLED.
Proof. vm_compute. done. Qed.

(** * Further properties of the code *)

(** ** Submitting orders while trading *)

Lemma send_order_trading_unfold engine vt_symbol direction offset price volume lock net e :
  Strategy.trading (self e) = true →
  send_order engine vt_symbol direction offset price volume lock net e
  = let r := StrategyEngine.send_order engine (self e) vt_symbol direction offset
                price volume lock net in
    Ok r.1
       (set_self
          (Strategy.set_active_orderids
             (Py.set_update (Strategy.active_orderids r.2) r.1) r.2)
          (log_call (SendOrderCall vt_symbol direction offset price volume lock net) e)).
Proof.
  intros Hon. unfold send_order. rewrite Hon. simpl.
  by destruct (StrategyEngine.send_order _ _ _ _ _ _ _ _ _).
Qed.

(** X2.  While trading is true, [send_order] makes exactly one request
    to the engine, with its own arguments, returns the identifiers the
    engine gave and tracks every one of them: the active-order set
    afterwards holds what the engine left in it and the returned
    identifiers, nothing else, and the positions are the engine's.  The
    four wrappers are that request with a fixed direction and offset:
    [buy] long and open, [sell] short and close, [short] short and open,
    [cover] long and close. *)
Theorem send_order_tracks_returned_ids engine vt_symbol direction offset price volume
    lock net (e : Env) :
  Strategy.trading (self e) = true →
  let r := StrategyEngine.send_order engine (self e) vt_symbol direction offset
             price volume lock net in
  let out := send_order engine vt_symbol direction offset price volume lock net e in
  out = Ok r.1 (env_of out)
  ∧ calls (env_of out)
    = calls e ++ [SendOrderCall vt_symbol direction offset price volume lock net]
  ∧ (∀ vt_orderid,
       vt_orderid ∈ Strategy.active_orderids (self (env_of out))
       ↔ vt_orderid ∈ Strategy.active_orderids r.2 ∨ vt_orderid ∈ r.1)
  ∧ Strategy.pos_data (self (env_of out)) = Strategy.pos_data r.2
  ∧ calls (env_of (buy engine vt_symbol price volume lock net e))
    = calls e ++ [SendOrderCall vt_symbol Direction.LONG Offset.OPEN price volume lock net]
  ∧ calls (env_of (sell engine vt_symbol price volume lock net e))
    = calls e ++ [SendOrderCall vt_symbol Direction.SHORT Offset.CLOSE price volume lock net]
  ∧ calls (env_of (short engine vt_symbol price volume lock net e))
    = calls e ++ [SendOrderCall vt_symbol Direction.SHORT Offset.OPEN price volume lock net]
  ∧ calls (env_of (cover engine vt_symbol price volume lock net e))
    = calls e ++ [SendOrderCall vt_symbol Direction.LONG Offset.CLOSE price volume lock net].
Proof.
  intros Hon r out. subst out r.
  unfold buy, sell, short, cover.
  rewrite !send_order_trading_unfold by done. cbn zeta.
  split; [done|]. split; [done|]. split.
  - intros vt_orderid. simpl. unfold Py.set_update.
    rewrite elem_of_union, elem_of_list_to_set. done.
  - done.
Qed.

(** The started template with the engine that acknowledges as BTC-1. *)
Lemma send_order_tracks_returned_ids_witness :
  Strategy.trading (self (started_env StrategyTemplate)) = true
  ∧ calls (env_of (cover acknowledging_engine "BTCUSDT.BINANCE" 100%float 1%float
                     false true (started_env StrategyTemplate)))
    = calls (started_env StrategyTemplate)
      ++ [SendOrderCall "BTCUSDT.BINANCE" Direction.LONG Offset.CLOSE
            100%float 1%float false true].
Proof.
  split; [reflexivity|].
  apply (send_order_tracks_returned_ids acknowledging_engine "BTCUSDT.BINANCE"
           Direction.LONG Offset.CLOSE 100%float 1%float false true
           (started_env StrategyTemplate)).
  reflexivity.
Defined.

Lemma discard_all_terminal (orders : list OrderData.t) (e : Env) :
  Forall (λ order, OrderData.is_active order = false) orders →
  Strategy.active_orderids (self (discard_all orders e))
  = Strategy.active_orderids (self e) ∖ list_to_set (OrderData.vt_orderid <$> orders).
Proof.
  unfold discard_all. intros Hall. revert e.
  induction Hall as [|order orders Hterm Hall IH]; intros e; simpl.
  - by rewrite difference_empty_L.
  - rewrite IH, on_order_discard_unfold. simpl.
    rewrite discarded_active, Hterm. apply difference_difference_l_L.
Qed.

(** X3.  The life of a submission, with an engine that acknowledges it
    without touching the strategy: after [send_order] the returned
    identifiers are tracked next to those that were; once lines 137-140
    have seen a terminal status for each of them they are all gone,
    those tracked before and not named again remain, and when the
    identifiers were new the set is back to what it was. *)
Theorem submitted_ids_tracked_until_terminal engine vt_symbol direction offset price volume
    lock net (e : Env) (orders : list OrderData.t) :
  Strategy.trading (self e) = true →
  StrategyEngine.send_order engine (self e) vt_symbol direction offset price volume lock net
  = (OrderData.vt_orderid <$> orders, self e) →
  Forall (λ order, OrderData.is_active order = false) orders →
  let e1 := env_of (send_order engine vt_symbol direction offset price volume lock net e) in
  let ids : gset string := list_to_set (OrderData.vt_orderid <$> orders) in
  Strategy.active_orderids (self e1) = Strategy.active_orderids (self e) ∪ ids
  ∧ Strategy.active_orderids (self (discard_all orders e1))
    = Strategy.active_orderids (self e) ∖ ids
  ∧ (ids ## Strategy.active_orderids (self e) →
     Strategy.active_orderids (self (discard_all orders e1))
     = Strategy.active_orderids (self e)).
Proof.
  intros Hon Hack Hterm e1 ids.
  assert (Strategy.active_orderids (self e1) = Strategy.active_orderids (self e) ∪ ids)
    as Hsent.
  { subst e1. rewrite send_order_trading_unfold by done. cbn zeta. by rewrite Hack. }
  assert (Strategy.active_orderids (self (discard_all orders e1))
          = Strategy.active_orderids (self e) ∖ ids) as Hdone.
  { rewrite discard_all_terminal by done. fold ids. rewrite Hsent.
    rewrite difference_union_distr_l_L, difference_diag_L. apply union_empty_r_L. }
  split; [done|]. split; [done|].
  intros Hnew. rewrite Hdone. by apply difference_disjoint_L.
Qed.

(** The started template submits, is acknowledged as BTC-1, and the order
    is reported cancelled. *)
Lemma submitted_ids_tracked_until_terminal_witness :
  Strategy.trading (self (started_env StrategyTemplate)) = true
  ∧ StrategyEngine.send_order acknowledging_engine (self (started_env StrategyTemplate))
      "BTCUSDT.BINANCE" Direction.LONG Offset.OPEN 100%float 1%float false false
    = (OrderData.vt_orderid <$> [cancelled_order "BTC-1"], self (started_env StrategyTemplate))
  ∧ Forall (λ order, OrderData.is_active order = false) [cancelled_order "BTC-1"]
  ∧ Strategy.active_orderids
      (self (discard_all [cancelled_order "BTC-1"]
               (env_of (send_order acknowledging_engine "BTCUSDT.BINANCE" Direction.LONG
                          Offset.OPEN 100%float 1%float false false
                          (started_env StrategyTemplate)))))
    = Strategy.active_orderids (self (started_env StrategyTemplate))
      ∖ list_to_set (OrderData.vt_orderid <$> [cancelled_order "BTC-1"]).
Proof.
  split; [reflexivity|]. split; [reflexivity|]. split.
  - repeat constructor.
  - refine (proj1 (proj2 (submitted_ids_tracked_until_terminal acknowledging_engine
             "BTCUSDT.BINANCE" Direction.LONG Offset.OPEN 100%float 1%float false false
             (started_env StrategyTemplate) [cancelled_order "BTC-1"] _ _ _))).
    + reflexivity.
    + reflexivity.
    + repeat constructor.
Defined.

(** ** [cancel_all] and what the engine does inside [cancel_order] *)

Lemma size_zero_empty (a : gset string) : size a = 0 → a = ∅.
Proof. intros Hzero. apply leibniz_equiv. by apply size_empty_inv. Qed.

(** The first round of the loop of [cancel_all] on a set that is not
    empty, while trading. *)
Lemma cancel_all_first_round engine (e : Env) :
  Strategy.trading (self e) = true →
  Strategy.active_orderids (self e) ≠ ∅ →
  ∃ vt_orderid m,
    vt_orderid ∈ Strategy.active_orderids (self e)
    ∧ size (Strategy.active_orderids (self e)) = S m
    ∧ cancel_all engine e
      = for_in_active_orderids (cancel_order engine) (S m) 1 m
          (set_self (StrategyEngine.cancel_order engine (self e) vt_orderid)
                    (log_call (CancelOrderCall vt_orderid) e)).
Proof.
  intros Hon Hne. unfold cancel_all.
  destruct (size (Strategy.active_orderids (self e))) as [|m] eqn:Hsize.
  { by apply size_zero_empty in Hsize. }
  destruct (elements (Strategy.active_orderids (self e))) as [|vt_orderid rest] eqn:Hel.
  { unfold size, set_size in Hsize; simpl in Hsize. by rewrite Hel in Hsize. }
  exists vt_orderid, m. split.
  { apply elem_of_elements. rewrite Hel. apply list_elem_of_here. }
  split; [done|].
  cbn [for_in_active_orderids]. rewrite Hsize, Nat.eqb_refl, Hel. simpl.
  unfold cancel_order at 1. by rewrite Hon.
Qed.

Lemma for_in_active_orderids_size_changed body si_used si_pos remaining (e : Env) :
  size (Strategy.active_orderids (self e)) ≠ si_used →
  for_in_active_orderids body si_used si_pos remaining e = Raise RuntimeError e.
Proof.
  intros Hsize. apply Nat.eqb_neq in Hsize.
  destruct remaining; simpl; by rewrite Hsize.
Qed.

(** X4.  With an engine whose [cancel_order] returns with the set at
    another size, [cancel_all] while trading returns normally only when
    no order is tracked (and then makes no request); otherwise it makes
    exactly one request, for a tracked identifier, and the next step of
    the loop raises [RuntimeError], with the instance as that one
    cancellation left it. *)
Theorem cancel_all_set_changed_in_loop engine (e : Env) :
  cancel_changes_size engine →
  Strategy.trading (self e) = true →
  (Strategy.active_orderids (self e) = ∅ → cancel_all engine e = Ok tt e)
  ∧ (Strategy.active_orderids (self e) ≠ ∅ →
     ∃ vt_orderid,
       vt_orderid ∈ Strategy.active_orderids (self e)
       ∧ cancel_all engine e
         = Raise RuntimeError
             (set_self (StrategyEngine.cancel_order engine (self e) vt_orderid)
                       (log_call (CancelOrderCall vt_orderid) e))).
Proof.
  intros Hengine Hon. split.
  - intros Hempty. unfold cancel_all. rewrite Hempty, size_empty. simpl.
    by rewrite Hempty, size_empty.
  - intros Hne.
    destruct (cancel_all_first_round engine e Hon Hne) as (vt_orderid & m & Hin & Hsize & ->).
    exists vt_orderid. split; [done|].
    apply for_in_active_orderids_size_changed. simpl. rewrite <- Hsize.
    by apply Hengine.
Qed.

Lemma confirming_engine_changes_size : cancel_changes_size confirming_engine.
Proof.
  intros s vt_orderid Hin. simpl.
  rewrite (size_difference (Strategy.active_orderids s) {[vt_orderid]}).
  - rewrite size_singleton.
    assert (size (Strategy.active_orderids s) ≠ 0); [|lia].
    intros Hzero. apply size_zero_empty in Hzero. rewrite Hzero in Hin.
    by apply not_elem_of_empty in Hin.
  - by apply singleton_subseteq_l.
Qed.

(** The confirming engine on the instance that tracks two orders, and on
    one that tracks none. *)
Lemma cancel_all_set_changed_in_loop_witness :
  cancel_changes_size confirming_engine
  ∧ Strategy.trading (self (two_orders_env StrategyTemplate)) = true
  ∧ (Strategy.active_orderids (self (started_env StrategyTemplate)) = ∅ →
     cancel_all confirming_engine (started_env StrategyTemplate)
     = Ok tt (started_env StrategyTemplate))
  ∧ raised (cancel_all confirming_engine (two_orders_env StrategyTemplate))
    = Some RuntimeError.
Proof.
  split; [exact confirming_engine_changes_size|]. split; [reflexivity|]. split.
  - refine (proj1 (cancel_all_set_changed_in_loop confirming_engine
                     (started_env StrategyTemplate) confirming_engine_changes_size _)).
    reflexivity.
  - vm_compute. reflexivity.
Defined.

(** X5.  [cancel_all] has no test of its own: each round goes through
    [cancel_order], which reads the trading flag again.  With an engine
    whose [cancel_order] leaves the set alone but returns with the
    strategy stopped, [cancel_all] on a set that is not empty makes one
    request, skips every other identifier without an error, and returns
    with all of them still tracked. *)
Theorem cancel_all_stops_with_trading engine (e : Env) :
  cancel_stops_trading engine →
  Strategy.trading (self e) = true →
  Strategy.active_orderids (self e) ≠ ∅ →
  ∃ vt_orderid e',
    vt_orderid ∈ Strategy.active_orderids (self e)
    ∧ cancel_all engine e = Ok tt e'
    ∧ calls e' = calls e ++ [CancelOrderCall vt_orderid]
    ∧ Strategy.trading (self e') = false
    ∧ Strategy.active_orderids (self e') = Strategy.active_orderids (self e).
Proof.
  intros Hengine Hon Hne.
  destruct (cancel_all_first_round engine e Hon Hne) as (vt_orderid & m & Hin & Hsize & ->).
  destruct (Hengine (self e) vt_orderid) as [Hset Hoff].
  set (e1 := set_self _ _).
  exists vt_orderid, e1. split; [done|].
  assert (Strategy.active_orderids (self e1) = Strategy.active_orderids (self e))
    as Hset1 by (subst e1; simpl; done).
  split.
  - rewrite <- Hsize, <- Hset1. apply for_in_active_orderids_not_trading.
    subst e1; simpl. done.
  - subst e1; simpl. by repeat split.
Qed.

Lemma cancel_all_stops_with_trading_witness :
  cancel_stops_trading halting_engine
  ∧ Strategy.trading (self (two_orders_env StrategyTemplate)) = true
  ∧ Strategy.active_orderids (self (two_orders_env StrategyTemplate)) ≠ ∅
  ∧ ∃ vt_orderid e',
      vt_orderid ∈ Strategy.active_orderids (self (two_orders_env StrategyTemplate))
      ∧ cancel_all halting_engine (two_orders_env StrategyTemplate) = Ok tt e'
      ∧ calls e' = calls (two_orders_env StrategyTemplate) ++ [CancelOrderCall vt_orderid]
      ∧ Strategy.trading (self e') = false
      ∧ Strategy.active_orderids (self e')
        = Strategy.active_orderids (self (two_orders_env StrategyTemplate)).
Proof.
  assert (Strategy.active_orderids (self (two_orders_env StrategyTemplate)) ≠ ∅) as Hne.
  { intros Hempty. apply (f_equal size) in Hempty. vm_compute in Hempty. discriminate. }
  split; [by intros s vt_orderid|]. split; [reflexivity|]. split; [exact Hne|].
  apply (cancel_all_stops_with_trading halting_engine (two_orders_env StrategyTemplate)).
  - by intros s vt_orderid.
  - reflexivity.
  - exact Hne.
Defined.

(** ** What [on_trade] sees, and the entries of the position map *)

Lemma dom_defaultdict_getitem (d : gmap string quantity) k :
  dom (Py.defaultdict_getitem d k).2 = {[k]} ∪ dom d.
Proof.
  unfold Py.defaultdict_getitem. destruct (d !! k) as [v|] eqn:Hk; simpl.
  - apply leibniz_equiv. symmetry. apply subseteq_union_1.
    apply singleton_subseteq_l, elem_of_dom. by exists v.
  - apply dom_insert_L.
Qed.

Lemma dom_booked trade e :
  dom (Strategy.pos_data (self (booked trade e)))
  = {[TradeData.vt_symbol trade]} ∪ dom (Strategy.pos_data (self e)).
Proof.
  unfold booked; simpl. rewrite dom_insert_L, dom_defaultdict_getitem.
  by rewrite union_assoc_L, union_idemp_L.
Qed.

(** X6.  [update_trade] books the trade before it calls [on_trade]: the
    hook, whatever it is, runs on an instance whose position for the
    traded instrument already has the volume added or subtracted, whose
    other positions, active-order set, flags and engine trace are
    untouched, and whose map has an entry for the instrument; the result
    of [update_trade] is the result of the hook, so a hook that raises
    leaves the trade booked. *)
Theorem update_trade_books_before_on_trade cls (trade : TradeData.t) (e : Env) :
  ∃ e1,
    update_trade cls trade e = self_on_trade cls trade e1
    ∧ position (TradeData.vt_symbol trade) e1
      = book (position (TradeData.vt_symbol trade) e) trade
    ∧ (∀ k, k ≠ TradeData.vt_symbol trade →
            Strategy.pos_data (self e1) !! k = Strategy.pos_data (self e) !! k)
    ∧ TradeData.vt_symbol trade ∈ dom (Strategy.pos_data (self e1))
    ∧ Strategy.active_orderids (self e1) = Strategy.active_orderids (self e)
    ∧ Strategy.trading (self e1) = Strategy.trading (self e)
    ∧ Strategy.inited (self e1) = Strategy.inited (self e)
    ∧ calls e1 = calls e.
Proof.
  exists (booked trade e). split; [apply update_trade_unfold|].
  split; [apply position_booked_same|].
  split; [by intros k Hk; apply pos_data_booked_other|].
  split; [|done].
  rewrite dom_booked. apply elem_of_union_l, elem_of_singleton. done.
Qed.

Lemma dom_update_trade cls trade e :
  on_trade_keeps_positions cls →
  dom (Strategy.pos_data (self (env_of (update_trade cls trade e))))
  = {[TradeData.vt_symbol trade]} ∪ dom (Strategy.pos_data (self e)).
Proof. intros Hk. rewrite update_trade_unfold, Hk. apply dom_booked. Qed.

(** X7.  The position map only grows: after a sequence of trades its keys
    are those it had and the instruments of the trades, whether or not
    they are among the instruments the strategy was created for and
    whether or not a position is back at 0; nothing is ever removed.
    The user's [on_trade] is assumed not to write the map. *)
Theorem deliver_trades_entries cls (trades : list TradeData.t) (e : Env) :
  on_trade_keeps_positions cls →
  dom (Strategy.pos_data (self (deliver_trades cls trades e)))
  = dom (Strategy.pos_data (self e)) ∪ traded_symbols trades.
Proof.
  intros Hk. unfold deliver_trades, traded_symbols. revert e.
  induction trades as [|trade trades IH]; intros e; simpl.
  - by rewrite union_empty_r_L.
  - rewrite IH, dom_update_trade by done.
    rewrite (union_comm_L {[TradeData.vt_symbol trade]}).
    by rewrite union_assoc_L.
Qed.

(** The three example trades on a fresh instance of the template created
    for BTCUSDT only: ETHUSDT gets an entry too. *)
Lemma deliver_trades_entries_witness :
  on_trade_keeps_positions StrategyTemplate
  ∧ dom (Strategy.pos_data
           (self (deliver_trades StrategyTemplate example_trades
                    (fresh_env StrategyTemplate "demo" ["BTCUSDT.BINANCE"] ∅))))
    = dom (Strategy.pos_data (self (fresh_env StrategyTemplate "demo" ["BTCUSDT.BINANCE"] ∅)))
      ∪ traded_symbols example_trades.
Proof.
  split.
  - intros trade e. reflexivity.
  - apply (deliver_trades_entries StrategyTemplate example_trades
             (fresh_env StrategyTemplate "demo" ["BTCUSDT.BINANCE"] ∅)).
    intros trade e. reflexivity.
Defined.

(** ** Settings applied one after the other *)

Lemma strategy_eq (s s' : Strategy.t) :
  same_fields s s' → Strategy.attrs s = Strategy.attrs s' → s = s'.
Proof.
  destruct s, s'; simpl. intros (?&?&?&?&?&?&?) ?; simpl in *. by subst.
Qed.

Lemma same_fields_trans s1 s2 s3 :
  same_fields s1 s2 → same_fields s2 s3 → same_fields s1 s3.
Proof.
  intros (?&?&?&?&?&?&?) (?&?&?&?&?&?&?).
  repeat split; etrans; eauto.
Qed.

Lemma same_fields_sym s1 s2 : same_fields s1 s2 → same_fields s2 s1.
Proof. intros (?&?&?&?&?&?&?). by repeat split. Qed.

(** X8.  Applying a setting [a] and then a setting [b] is applying the
    single setting in which [b] takes precedence; so applying the same
    setting twice is applying it once, and the empty setting changes
    nothing. *)
Theorem update_setting_composes cls (a b : gmap string pyval) (s : Strategy.t) :
  update_setting cls b (update_setting cls a s) = update_setting cls (b ∪ a) s
  ∧ update_setting cls a (update_setting cls a s) = update_setting cls a s
  ∧ update_setting cls ∅ s = s.
Proof.
  assert (∀ a b, update_setting cls b (update_setting cls a s)
                 = update_setting cls (b ∪ a) s) as Hcomp.
  { clear a b. intros a b. apply strategy_eq.
    - eapply same_fields_trans; [apply same_fields_sym, update_setting_same_fields|].
      eapply same_fields_trans; [apply same_fields_sym, update_setting_same_fields|].
      apply update_setting_same_fields.
    - apply map_eq. intros name. rewrite !update_setting_attrs.
      case_bool_decide as Hparam; [|done].
      rewrite lookup_union. destruct (b !! name), (a !! name); done. }
  split; [apply Hcomp|]. split.
  - rewrite Hcomp. by rewrite (idemp (∪) a).
  - apply strategy_eq.
    + apply same_fields_sym, update_setting_same_fields.
    + apply map_eq. intros name. rewrite update_setting_attrs, lookup_empty.
      by case_bool_decide.
Qed.

(** ** Snapshots of the parameters *)

Lemma odict_setitem_fresh k v (d : list (string * pyval)) :
  k ∉ d.*1 → odict_setitem k v d = d ++ [(k, v)].
Proof.
  induction d as [|[k' v'] d IH]; intros Hnew; simpl; [done|].
  rewrite fmap_cons in Hnew. apply not_elem_of_cons in Hnew as [Hne Hnew].
  rewrite decide_False by done. by rewrite IH.
Qed.

Lemma read_attributes_in_order cls s names vs (d : list (string * pyval)) :
  NoDup names →
  (∀ name, name ∈ names → name ∉ d.*1) →
  Forall2 (λ name v, getattr cls s name = inr v) names vs →
  read_attributes cls s names d = inr (d ++ zip names vs).
Proof.
  intros Hnodup Hnew Hread. revert d Hnodup Hnew.
  induction Hread as [|name v names vs Hv Hread IH]; intros d Hnodup Hnew; simpl.
  - by rewrite app_nil_r.
  - apply NoDup_cons in Hnodup as [Hfirst Hnodup].
    rewrite Hv, odict_setitem_fresh by (apply Hnew, list_elem_of_here).
    rewrite IH; [by rewrite <- app_assoc|done|].
    intros name' Hin. rewrite fmap_app, elem_of_app. intros [Hold|Hlast].
    + by apply (Hnew name'); [right|].
    + simpl in Hlast. apply list_elem_of_singleton in Hlast. by subst.
Qed.

(** X9.  When the declared parameter names are distinct and each of them
    can be read, [get_parameters] returns them in the declared order,
    each with the value that [getattr] gives on the instance. *)
Theorem get_parameters_in_declared_order cls (s : Strategy.t) (vs : list pyval) :
  NoDup (StrategyClass.parameters cls) →
  Forall2 (λ name v, getattr cls s name = inr v) (StrategyClass.parameters cls) vs →
  get_parameters cls s = inr (zip (StrategyClass.parameters cls) vs).
Proof.
  intros Hnodup Hread. unfold get_parameters.
  rewrite (read_attributes_in_order cls s _ vs []); [done|done| |done].
  intros name _. apply not_elem_of_nil.
Qed.

(** [DemoStrategy] constructed with [fast_window] set to 5. *)
Lemma get_parameters_in_declared_order_witness :
  NoDup (StrategyClass.parameters DemoStrategy)
  ∧ Forall2 (λ name v,
       getattr DemoStrategy (__init__ DemoStrategy "demo" ["BTCUSDT.BINANCE"] demo_setting)
         name = inr v)
      (StrategyClass.parameters DemoStrategy) [VInt 5; VInt 20]
  ∧ get_parameters DemoStrategy (__init__ DemoStrategy "demo" ["BTCUSDT.BINANCE"] demo_setting)
    = inr (zip (StrategyClass.parameters DemoStrategy) [VInt 5; VInt 20]).
Proof.
  assert (NoDup (StrategyClass.parameters DemoStrategy)) as Hnodup.
  { apply (bool_decide_unpack _). vm_compute. exact I. }
  assert (Forall2 (λ name v,
            getattr DemoStrategy
              (__init__ DemoStrategy "demo" ["BTCUSDT.BINANCE"] demo_setting) name = inr v)
            (StrategyClass.parameters DemoStrategy) [VInt 5; VInt 20]) as Hread.
  { repeat constructor. }
  split; [exact Hnodup|]. split; [exact Hread|].
  exact (get_parameters_in_declared_order DemoStrategy _ _ Hnodup Hread).
Defined.

Lemma getattr_error cls s name x : getattr cls s name = inl x → x = AttributeError.
Proof.
  unfold getattr. destruct (_ !! name); [done|].
  destruct (_ !! name); [done|]. congruence.
Qed.

Lemma read_attributes_fails cls s names (d : list (string * pyval)) :
  (∃ x, read_attributes cls s names d = inl x)
  ↔ ∃ name, name ∈ names ∧ getattr cls s name = inl AttributeError.
Proof.
  revert d. induction names as [|name names IH]; intros d; simpl.
  - split; [by intros [x ?]|]. by intros (name & ?%elem_of_nil & _).
  - destruct (getattr cls s name) as [x|v] eqn:Hname.
    + apply getattr_error in Hname as Hx. subst x. split.
      * intros _. exists name. split; [apply list_elem_of_here|done].
      * intros _. by exists AttributeError.
    + rewrite IH. split.
      * intros (name' & Hin & Hbad). exists name'. split; [by right|done].
      * intros (name' & [->|Hin]%elem_of_cons & Hbad); [congruence|].
        by exists name'.
Qed.

(** X10.  [get_parameters] fails exactly when some declared parameter can
    be read neither on the instance nor on its class, whatever the other
    parameters are, and the exception is then [AttributeError]. *)
Theorem get_parameters_fails_iff cls (s : Strategy.t) :
  ((∃ x, get_parameters cls s = inl x)
   ↔ ∃ name, name ∈ StrategyClass.parameters cls ∧ getattr cls s name = inl AttributeError)
  ∧ ∀ x, get_parameters cls s = inl x → x = AttributeError.
Proof.
  unfold get_parameters. split; [apply read_attributes_fails|].
  generalize (@nil (string * pyval)).
  induction (StrategyClass.parameters cls) as [|name names IH]; intros d x; simpl; [done|].
  destruct (getattr cls s name) as [x'|v] eqn:Hname.
  - intros [= <-]. by apply getattr_error in Hname.
  - apply IH.
Qed.

(** ** The instance, the defaults of its class, and [get_data] *)

Lemma instance_fields_lookup_other s name :
  name ∉ template_names →
  (list_to_map (instance_fields s) : gmap string pyval) !! name = None.
Proof.
  intros Hname. apply not_elem_of_list_to_map_1.
  change ((instance_fields s).*1) with (take 8 template_names).
  intros Hin. apply Hname. revert Hin. apply subseteq_take.
Qed.

Lemma variables_is_template_name : "variables" ∈ template_names.
Proof. unfold template_names. do 7 right. left. Qed.

(** On a fresh instance a declared parameter of a well-formed class reads
    as the setting gives it, and as the class defines it when the
    setting does not name it. *)
Lemma getattr_fresh_parameter cls strategy_name vt_symbols setting name :
  name ∉ template_names →
  name ∈ StrategyClass.parameters cls →
  getattr cls (__init__ cls strategy_name vt_symbols setting) name
  = match setting !! name with
    | Some v => inr v
    | None => class_getattr cls name
    end.
Proof.
  intros Hname Hparam. unfold getattr, class_getattr, __init__.
  rewrite lookup_union, instance_fields_lookup_other by done.
  rewrite update_setting_attrs, bool_decide_eq_true_2 by done.
  cbn [Strategy.attrs]. rewrite lookup_empty.
  destruct (setting !! name) as [v|]; [done|].
  cbn [from_option union_with option_union_with].
  unfold class_members. rewrite list_to_map_cons.
  rewrite (lookup_union (<[_:=_]> _)), lookup_insert_ne, <- lookup_union; [done|].
  intros <-. apply Hname, variables_is_template_name.
Qed.

Lemma overlay_setitem setting name v (d : list (string * pyval)) :
  odict_setitem name (default v (setting !! name)) (overlay setting d)
  = overlay setting (odict_setitem name v d).
Proof.
  unfold overlay. induction d as [|[k' v'] d IH]; [done|].
  rewrite fmap_cons. cbn [odict_setitem fst snd].
  destruct (decide (name = k')) as [->|Hne].
  - by rewrite fmap_cons.
  - by rewrite fmap_cons, IH.
Qed.

Lemma read_attributes_overlay cls strategy_name vt_symbols setting names d defaults :
  Forall (λ name, (name ∉ template_names) ∧ (name ∈ StrategyClass.parameters cls)) names →
  read_class_attributes cls names d = inr defaults →
  read_attributes cls (__init__ cls strategy_name vt_symbols setting) names
    (overlay setting d)
  = inr (overlay setting defaults).
Proof.
  intros Hnames. revert d.
  induction Hnames as [|name names [Hname Hparam] Hnames IH]; intros d.
  - cbn [read_class_attributes read_attributes]. by intros [= ->].
  - cbn [read_class_attributes read_attributes].
    rewrite getattr_fresh_parameter by done.
    destruct (class_getattr cls name) as [x|v] eqn:Hclass; [done|].
    intros Hrest. apply IH in Hrest. rewrite <- overlay_setitem in Hrest.
    destruct (setting !! name) as [v'|]; exact Hrest.
Qed.

Lemma read_attributes_as_class cls s names (d : list (string * pyval)) :
  (∀ name, name ∈ names → getattr cls s name = class_getattr cls name) →
  read_attributes cls s names d = read_class_attributes cls names d.
Proof.
  revert d. induction names as [|name names IH]; intros d Hsame; [done|].
  cbn [read_class_attributes read_attributes].
  rewrite Hsame by apply list_elem_of_here.
  destruct (class_getattr cls name); [done|].
  apply IH. intros name' Hin. apply Hsame. by right.
Qed.

Lemma wf_class_parameters cls :
  wf_class cls →
  Forall (λ name, (name ∉ template_names) ∧ (name ∈ StrategyClass.parameters cls))
         (StrategyClass.parameters cls).
Proof.
  unfold wf_class. rewrite !Forall_forall. intros Hwf name Hin. split; [by apply Hwf|done].
Qed.

(** X11.  For a class whose parameters are attributes of its own: the
    snapshot of a fresh instance is the snapshot of the class defaults
    with the values of the setting laid over it, name by name and in the
    same order; with the empty setting [get_parameters] on the instance
    and [get_class_parameters] on the class give the same result, be it
    a snapshot or an exception. *)
Theorem get_parameters_overlays_class_defaults cls strategy_name vt_symbols
    (setting : gmap string pyval) :
  wf_class cls →
  (∀ defaults,
     get_class_parameters cls = inr defaults →
     get_parameters cls (__init__ cls strategy_name vt_symbols setting)
     = inr (overlay setting defaults))
  ∧ get_parameters cls (__init__ cls strategy_name vt_symbols ∅) = get_class_parameters cls.
Proof.
  intros Hwf%wf_class_parameters. split.
  - intros defaults Hclass. unfold get_parameters.
    by apply (read_attributes_overlay cls strategy_name vt_symbols setting _ []).
  - unfold get_parameters, get_class_parameters. apply read_attributes_as_class.
    intros name Hin. rewrite Forall_forall in Hwf. destruct (Hwf name Hin) as [Hname _].
    by rewrite getattr_fresh_parameter, lookup_empty.
Qed.

(** [DemoStrategy]: the defaults are 10 and 20, the setting puts
    [fast_window] at 5. *)
Lemma get_parameters_overlays_class_defaults_witness :
  wf_class DemoStrategy
  ∧ get_class_parameters DemoStrategy
    = inr [("fast_window", VInt 10); ("slow_window", VInt 20)]
  ∧ get_parameters DemoStrategy (__init__ DemoStrategy "demo" ["BTCUSDT.BINANCE"] demo_setting)
    = inr (overlay demo_setting [("fast_window", VInt 10); ("slow_window", VInt 20)]).
Proof.
  assert (wf_class DemoStrategy) as Hwf.
  { apply (bool_decide_unpack _). vm_compute. exact I. }
  assert (get_class_parameters DemoStrategy
          = inr [("fast_window", VInt 10); ("slow_window", VInt 20)]) as Hclass.
  { vm_compute. reflexivity. }
  split; [exact Hwf|]. split; [exact Hclass|].
  exact (proj1 (get_parameters_overlays_class_defaults DemoStrategy "demo"
                  ["BTCUSDT.BINANCE"] demo_setting Hwf) _ Hclass).
Defined.

Lemma getattr_instance_field cls s name :
  name ∈ (instance_fields s).*1 → ∃ v, getattr cls s name = inr v.
Proof.
  intros Hin. unfold getattr.
  destruct ((Strategy.attrs s ∪ list_to_map (instance_fields s)) !! name) as [v|] eqn:Hv.
  - by exists v.
  - apply lookup_union_None in Hv as [_ Hv].
    by apply not_elem_of_list_to_map_2 in Hv.
Qed.

Lemma getattr_author cls s : ∃ v, getattr cls s "author" = inr v.
Proof.
  unfold getattr. destruct (_ !! "author") as [v|]; [by exists v|].
  change (template_members cls)
    with (("author", VStr (StrategyClass.author cls))
          :: ("parameters", VList (StrategyClass.parameters cls))
          :: ((λ name, (name, VRef name)) <$> drop 10 template_names)).
  rewrite list_to_map_cons, lookup_union, lookup_insert_eq.
  destruct (StrategyClass.class_attrs cls !! "author"); by eexists.
Qed.

(** X12.  [get_data] builds its dictionary entry by entry and calls
    [get_variables] last.  On a constructed instance (of a class whose
    parameters are attributes of its own) it therefore never returns:
    it raises the exception of [get_parameters] when that call fails,
    and otherwise [TypeError], from iterating the [None] that line 46
    stored in [variables]. *)
Theorem get_data_raises_after_construction cls strategy_name vt_symbols
    (setting : gmap string pyval) :
  wf_class cls →
  get_data cls (__init__ cls strategy_name vt_symbols setting)
  = inl (match get_parameters cls (__init__ cls strategy_name vt_symbols setting) with
         | inl x => x
         | inr _ => TypeError
         end).
Proof.
  intros _. unfold get_data.
  destruct (getattr_instance_field cls (__init__ cls strategy_name vt_symbols setting)
              "strategy_name") as [v1 ->].
  { change (instance_fields _).*1 with (take 8 template_names).
    unfold template_names. cbn [take]. right. left. }
  destruct (getattr_instance_field cls (__init__ cls strategy_name vt_symbols setting)
              "vt_symbols") as [v2 ->].
  { change (instance_fields _).*1 with (take 8 template_names).
    unfold template_names. cbn [take]. do 2 right. left. }
  destruct (getattr_author cls (__init__ cls strategy_name vt_symbols setting)) as [v3 ->].
  destruct (get_parameters cls _); [done|].
  unfold get_variables.
  destruct (fresh_env_fields cls strategy_name vt_symbols setting) as (_&_&_&_&Hvars).
  unfold fresh_env in Hvars; cbn [self] in Hvars. by rewrite Hvars.
Qed.

Lemma get_data_raises_after_construction_witness :
  wf_class DemoStrategy
  ∧ get_data DemoStrategy (__init__ DemoStrategy "demo" ["BTCUSDT.BINANCE"] demo_setting)
    = inl TypeError.
Proof.
  assert (wf_class DemoStrategy) as Hwf.
  { apply (bool_decide_unpack _). vm_compute. exact I. }
  split; [exact Hwf|].
  exact (get_data_raises_after_construction DemoStrategy "demo" ["BTCUSDT.BINANCE"]
           demo_setting Hwf).
Defined.

(** ** An override of [on_order] that calls the template's method *)

Lemma bind_unfold {A B} (m : M A) (k : A → M B) (e : Env) :
  (m ≫= k) e
  = match m e with
    | Ok a e' => k a e'
    | Raise x e' => Raise x e'
    end.
Proof. reflexivity. Qed.

Lemma on_order_forwarding before after :
  (∀ order e, raised (before order e) = None) →
  ∀ depth order e,
    raised (on_order (ForwardingStrategy before after) depth order e) = Some RecursionError
    ∧ raised (on_order (ForwardingStrategy before after) (S depth) order e)
      = Some RecursionError.
Proof.
  intros Hbefore. induction depth as [|depth IH]; intros order e.
  - split; [done|]. cbn [on_order]. by rewrite bind_unfold, on_order_discard_unfold.
  - destruct (IH order e) as [_ Hone]. split; [exact Hone|].
    cbn [on_order]. rewrite bind_unfold, on_order_discard_unfold.
    cbn [ForwardingStrategy StrategyClass.on_order]. rewrite bind_unfold.
    pose proof (Hbefore order (discarded order e)) as Hok.
    destruct (before order (discarded order e)) as [[] e2|x e2]; [|done].
    rewrite bind_unfold. destruct (IH order e2) as [Hrec _].
    by destruct (on_order _ depth order e2).
Qed.

(** X13.  A subclass whose [on_order] calls [super().on_order(order)],
    after statements that do not raise, gets no further than the
    template without an override: the template's method calls the
    override again, and the callback ends in [RecursionError] whatever
    the recursion limit; what the override has after the call to
    [super] never runs to completion. *)
Theorem on_order_override_calling_super before after (depth : nat)
    (order : OrderData.t) (e : Env) :
  (∀ order e, raised (before order e) = None) →
  raised (self_on_order (ForwardingStrategy before after) depth order e)
  = Some RecursionError
  ∧ raised (on_order (ForwardingStrategy before after) depth order e)
    = Some RecursionError.
Proof.
  intros Hbefore. split; [|by apply on_order_forwarding].
  unfold self_on_order. cbn [ForwardingStrategy StrategyClass.on_order].
  destruct depth as [|depth]; [done|].
  rewrite bind_unfold.
  pose proof (Hbefore order e) as Hok.
  destruct (before order e) as [[] e2|x e2]; [|done].
  rewrite bind_unfold.
  destruct (on_order_forwarding before after Hbefore depth order e2) as [Hrec _].
  by destruct (on_order _ depth order e2).
Qed.

(** The override that only forwards: [super().on_order(order)]. *)
Lemma on_order_override_calling_super_witness :
  (∀ order e, raised (pass order e) = None)
  ∧ raised (self_on_order (ForwardingStrategy pass pass) 1000
              (cancelled_order "BTC-1") (two_orders_env StrategyTemplate))
    = Some RecursionError.
Proof.
  split; [intros order e; reflexivity|].
  apply (on_order_override_calling_super pass pass 1000
           (cancelled_order "BTC-1") (two_orders_env StrategyTemplate)).
  intros order e. reflexivity.
Defined.

(** ** The instrument key of a stop order *)

Lemma dotless_append_dot (s v : string) : dotless (s +:+ String dot v) = false.
Proof.
  induction s as [|c s IH]; [reflexivity|].
  change (dotless (String c s +:+ String dot v))
    with (negb (Ascii.eqb c dot) && dotless (s +:+ String dot v)).
  rewrite IH. apply andb_false_r.
Qed.

Lemma append_dot_inj (s1 s2 v1 v2 : string) :
  dotless v1 = true → dotless v2 = true →
  s1 +:+ "." +:+ v1 = s2 +:+ "." +:+ v2 →
  s1 = s2 ∧ v1 = v2.
Proof.
  intros H1 H2. change ("." +:+ v1) with (String dot v1).
  change ("." +:+ v2) with (String dot v2).
  revert s2. induction s1 as [|c s1 IH]; intros [|c' s2]; simpl; intros Heq.
  - by injection Heq as ->.
  - injection Heq as _ ->. by rewrite dotless_append_dot in H1.
  - injection Heq as _ <-. by rewrite dotless_append_dot in H2.
  - injection Heq as -> Heq. destruct (IH s2 Heq) as [-> ->]. done.
Qed.

(** X14.  As long as the value of an exchange has no dot in it, the
    [vt_symbol] that [__post_init__] derives names one symbol and one
    exchange only: two stop orders with the same [vt_symbol] have the
    same symbol and the same exchange, whatever dots the symbols
    contain. *)
Theorem vt_symbol_names_one_instrument (f1 f2 : StopOrder.fields) :
  dotless (Exchange.value (StopOrder.exchange f1)) = true →
  dotless (Exchange.value (StopOrder.exchange f2)) = true →
  StopOrder.vt_symbol (StopOrder.__post_init__ f1)
  = StopOrder.vt_symbol (StopOrder.__post_init__ f2) →
  StopOrder.symbol f1 = StopOrder.symbol f2
  ∧ StopOrder.exchange f1 = StopOrder.exchange f2.
Proof.
  intros H1 H2 Heq. simpl in Heq.
  destruct (append_dot_inj _ _ _ _ H1 H2 Heq) as [Hsym Hex]. split; [done|].
  destruct (StopOrder.exchange f1), (StopOrder.exchange f2); simpl in *. by subst.
Qed.

Lemma vt_symbol_names_one_instrument_witness :
  dotless (Exchange.value (StopOrder.exchange buy_stop_100.1)) = true
  ∧ StopOrder.vt_symbol (StopOrder.__post_init__ buy_stop_100.1)
    = StopOrder.vt_symbol (StopOrder.__post_init__ buy_stop_100.1)
  ∧ StopOrder.symbol buy_stop_100.1 = StopOrder.symbol buy_stop_100.1
  ∧ StopOrder.exchange buy_stop_100.1 = StopOrder.exchange buy_stop_100.1.
Proof.
  split; [reflexivity|]. split; [reflexivity|].
  apply (vt_symbol_names_one_instrument buy_stop_100.1 buy_stop_100.1); reflexivity.
Defined.

(** With a dot in the value of the exchange the key is ambiguous. *)
Example vt_symbol_ambiguous_with_dotted_exchange :
  "A" +:+ "." +:+ Exchange.value (Exchange.Build "B.C")
  = "A.B" +:+ "." +:+ Exchange.value (Exchange.Build "C").
Proof. reflexivity. Qed.
